(** * Stock scanner dashboard: a shallow embedding of [src/app.py]

    The development follows the layout of the program: the numeric helpers
    Python provides ([int], [round], [str], number formatting), the sheet
    parser, the fetch cache, the position-sizing annotation of [/api/data],
    the JSON file store, and the two trade trackers (covered calls and stock
    positions) with their summaries.

    Conventions of the embedding.
    - Python numbers are exact rationals ([Q]); binary64 rounding and the
      non-finite floats are outside the model.  Concrete examples use values
      on which binary64 arithmetic is exact or far from a rounding boundary.
    - A Python dict with a fixed set of keys is a record; a key read with
      [d.get(k, default)] is an [option] field, a key that may hold [None]
      is an [option] inside it.  The header-keyed stock rows are finite maps.
    - Code that can raise returns [option] (or a response type with an error
      constructor); module-level mutable state is passed explicitly. *)

From Stdlib Require Import QArith Qround Qabs Qminmax ZArith String Ascii List
  Lia Lqa.
From stdpp Require Import gmap strings list fin_maps pretty sorting.

Set Default Proof Using "Type".

(** ** Python numbers *)

Module PyNum.

Local Open Scope Q_scope.

(** [int(x)] on a float: truncation toward zero. *)
Definition py_int (x : Q) : Z := Z.quot (Qnum x) (Z.pos (Qden x)).

(** Rounding to the nearest integer, ties to even: the rule behind
    [round(x, n)] and behind the [.0f] format. *)
Definition round_half_even (x : Q) : Z :=
  let f := Qfloor x in
  match Qcompare (x - inject_Z f) (1 # 2) with
  | Lt => f
  | Gt => (f + 1)%Z
  | Eq => if Z.even f then f else (f + 1)%Z
  end.

(** [round(x, 2)]. *)
Definition py_round2 (x : Q) : Q :=
  inject_Z (round_half_even (x * 100)) / 100.

Definition Qltb (x y : Q) : bool := negb (Qle_bool y x).

(** [str(n)] for an integer. *)
Definition py_str (n : Z) : string := pretty n.

(** The [,] option of the format mini-language: a comma before every
    group of three digits, counted from the right.  [commas_rev] works on
    the reversed digit list; [k] digits remain in the current group. *)
Fixpoint commas_rev (l : list ascii) (k : nat) : list ascii :=
  match l with
  | [] => []
  | c :: l' =>
      match k with
      | O => ","%char :: c :: commas_rev l' 2
      | S k' => c :: commas_rev l' k'
      end
  end.

Definition group_thousands (digits : string) : string :=
  string_of_list_ascii
    (rev (commas_rev (rev (list_ascii_of_string digits)) 3)).

(** [f"{x:,.0f}"]: the sign of [x], then the grouped digits of [|x|]
    rounded half-even to an integer. *)
Definition format_comma_0f (x : Q) : string :=
  ((if Qltb x 0 then "-" else "") ++
   group_thousands (pretty (round_half_even (Qabs x))))%string.

(** A reader for plain decimal literals, [[+-]digits[.digits]]: on these
    it agrees with [float(s)] (up to binary64 rounding), and it is the
    reader the examples of this file run on.  Other strings are rejected
    here; Python's [float] accepts more (exponents, [inf], [nan],
    surrounding blanks, a bare [.5]). *)
Definition digit_val (c : ascii) : option Z :=
  let n := nat_of_ascii c in
  if (48 <=? n)%nat && (n <=? 57)%nat then Some (Z.of_nat (n - 48)%nat)
  else None.

Fixpoint digits_val (acc : Z) (l : list ascii) : option Z :=
  match l with
  | [] => Some acc
  | c :: l' =>
      match digit_val c with
      | Some d => digits_val (acc * 10 + d)%Z l'
      | None => None
      end
  end.

(** The characters before the first ['.'] and, when there is one, those
    after it. *)
Fixpoint split_point (l : list ascii) : list ascii * option (list ascii) :=
  match l with
  | [] => ([], None)
  | c :: l' =>
      if bool_decide (c = "."%char) then ([], Some l')
      else let '(ip, fp) := split_point l' in (c :: ip, fp)
  end.

Definition unsigned_literal (l : list ascii) : option Q :=
  match split_point l with
  | ([], _) => None
  | (ip, None) | (ip, Some []) => inject_Z <$> digits_val 0 ip
  | (ip, Some fp) =>
      i ← digits_val 0 ip;
      f ← digits_val 0 fp;
      Some (inject_Z i + inject_Z f / inject_Z (10 ^ Z.of_nat (length fp)))
  end.

Definition decimal_literal (s : string) : option Q :=
  match list_ascii_of_string s with
  | "-"%char :: l => Qopp <$> unsigned_literal l
  | "+"%char :: l => unsigned_literal l
  | l => unsigned_literal l
  end.

End PyNum.

(** ** Sheet snapshot parser *)

Module Sheet.

Record market_info := {
  regime : string;
  dist_days : string;
  buy_ok : string
}.

Record account_info := {
  balance : string;
  risk_per_trade : string;
  actionable : string
}.

(** The dict returned by [parse_sheet_data]. *)
Record snapshot := {
  scan_time : string;
  market : market_info;
  account : account_info;
  headers : list string;
  stocks : list (gmap string string);
  cache_time : Q
}.

(** [row[j] if len(row) > j else d]. *)
Definition cell (row : list string) (j : nat) (d : string) : string :=
  default d (row !! j).

(** The inner loop: one dict per data row, keyed by header; a header that
    occurs twice keeps the value of its last column. *)
Definition make_stock (hdrs row : list string) : gmap string string :=
  foldl (fun stock jh => <[jh.2 := cell row jh.1 ""]> stock) ∅
        (imap pair hdrs).

(** [cache_timestamp] is the value of [cache['timestamp']] the function
    reads when it builds the result. *)
Definition parse_sheet_data (raw_values : list (list string))
    (cache_timestamp : Q) : option snapshot :=
  if bool_decide (raw_values = []) || (length raw_values <? 5)%nat
  then None
  else
    let row i := default [] (raw_values !! i) in
    let hdrs := row 4%nat in
    Some {|
      scan_time := cell (row 0%nat) 2 "Unknown";
      market := {| regime := cell (row 1%nat) 0 "";
                   dist_days := cell (row 1%nat) 2 "";
                   buy_ok := cell (row 1%nat) 4 "" |};
      account := {| balance := cell (row 2%nat) 0 "";
                    risk_per_trade := cell (row 2%nat) 2 "";
                    actionable := cell (row 2%nat) 4 "" |};
      headers := hdrs;
      stocks := make_stock hdrs <$>
                  filter (fun r => (1 < length r)%nat) (drop 5 raw_values);
      cache_time := cache_timestamp
    |}.

End Sheet.

(** ** Fetch and cache gate *)

Module Cache.
Import PyNum Sheet.

Local Open Scope Q_scope.

(** The environment variables the module reads at start-up. *)
Record config := {
  SHEET_ID : string;
  GOG_ACCOUNT : string;
  CACHE_DURATION : Z
}.

(** What running the [gog] command line produced.  [JsonValues v] is a
    decoded object whose ['values'] entry is [v] ([None]: no such key);
    [BadJson] is an output [json.loads] or [.get] raises on. *)
Inductive gog_stdout :=
| BadJson
| JsonValues (v : option (list (list string))).

Inductive gog_run :=
| RunRaised
| RunExit (returncode : Z) (out : gog_stdout).

(** [fetch_sheet_data]: [None] is its failure signal. *)
Definition fetch_sheet_data (cfg : config) (run : gog_run)
    : option (list (list string)) :=
  if bool_decide (SHEET_ID cfg = "") || bool_decide (GOG_ACCOUNT cfg = "")
  then None
  else
    match run with
    | RunRaised => None
    | RunExit returncode out =>
        if negb (returncode =? 0)%Z then None
        else
          match out with
          | BadJson => None
          | JsonValues v => Some (default [] v)
          end
    end.

(** The module-level [cache] dict, together with the sequence of
    snapshots handed to [save_historical_snapshot] so far (oldest
    first). *)
Record state := {
  data : option snapshot;
  timestamp : Q;
  last_scan_time : option string;
  history : list snapshot
}.

Definition initial : state :=
  {| data := None; timestamp := 0; last_scan_time := None; history := [] |}.

(** [save_historical_snapshot]: one more snapshot written to the history
    directory.  The log records the call; the file name (wall-clock
    minute) and a failed write, which the function swallows, are below
    this model. *)
Definition save_historical_snapshot (snap : snapshot)
    (log : list snapshot) : list snapshot :=
  log ++ [snap].

(** The test that opens the fetch branch of [get_cached_data]. *)
Definition wants_fetch (cfg : config) (force_refresh : bool)
    (current_time : Q) (st : state) : bool :=
  force_refresh
  || bool_decide (data st = None)
  || Qltb (inject_Z (CACHE_DURATION cfg)) (current_time - timestamp st).

(** The body of the [if raw_data:] block. *)
Definition store_fetched (current_time : Q) (raw_data : list (list string))
    (st : state) : state :=
  let parsed := parse_sheet_data raw_data (timestamp st) in
  match parsed with
  | Some snap =>
      if bool_decide (Some (scan_time snap) <> last_scan_time st) then
        {| data := parsed; timestamp := current_time;
           last_scan_time := Some (scan_time snap);
           history := save_historical_snapshot snap (history st) |}
      else
        {| data := parsed; timestamp := current_time;
           last_scan_time := last_scan_time st; history := history st |}
  | None =>
      {| data := None; timestamp := current_time;
         last_scan_time := last_scan_time st; history := history st |}
  end.

(** [get_cached_data]: the value returned and the cache afterwards.
    [run] is what the command line does if it is started now. *)
Definition get_cached_data (cfg : config) (force_refresh : bool)
    (current_time : Q) (run : gog_run) (st : state)
    : option snapshot * state :=
  let st' :=
    if wants_fetch cfg force_refresh current_time st then
      match fetch_sheet_data cfg run with
      | Some raw_data =>
          if bool_decide (raw_data = []) then st
          else store_fetched current_time raw_data st
      | None => st
      end
    else st in
  (data st', st').

End Cache.

(** ** Position sizing in [/api/data] *)

Module Sizing.
Import PyNum Sheet Cache.

Local Open Scope Q_scope.

(** The settings document; a key may be absent. *)
Record settings := {
  account_equity : option Q;
  risk_pct : option Q;
  max_positions : option Z
}.

Inductive response (A : Type) :=
| Http500 (error : string)
| Http200 (body : A).
Arguments Http500 {A} error.
Arguments Http200 {A} body.

Section Annotate.
(** [float(s)] on a string cell; [None] is [ValueError]. *)
Variable py_float : string -> option Q.

(** [float(stock.get(k, 0))]. *)
Definition float_field (stock : gmap string string) (k : string)
    : option Q :=
  match stock !! k with
  | Some s => py_float s
  | None => Some 0
  end.

Definition not_computable (stock : gmap string string)
    : gmap string string :=
  <["Cost" := ""]> (<["Shares" := ""]> stock).

(** One iteration of the loop over [data['stocks']]. *)
Definition annotate_stock (risk_per_trade : Q)
    (stock : gmap string string) : gmap string string :=
  match float_field stock "Pivot" with
  | None => not_computable stock
  | Some pivot =>
      match float_field stock "Stop" with
      | None => not_computable stock
      | Some stop =>
          if Qltb 0 pivot && Qltb 0 stop && Qltb stop pivot then
            let risk_per_share := pivot - stop in
            let shares := py_int (risk_per_trade / risk_per_share) in
            <["Cost" := ("$" ++ format_comma_0f (inject_Z shares * pivot))
                          %string]>
              (<["Shares" := py_str shares]> stock)
          else not_computable stock
      end
  end.

(** The header update at the end of [api_data]. *)
Definition add_cost_header (hdrs : list string) : list string :=
  if bool_decide ("Cost" ∈ hdrs) then hdrs
  else
    match list_find (fun h => h = "Shares") hdrs with
    | Some (shares_idx, _) =>
        take (S shares_idx) hdrs ++ "Cost" :: drop (S shares_idx) hdrs
    | None => hdrs ++ ["Cost"]
    end.

Definition risk_per_trade_of (s : settings) : Q :=
  default 100000 (account_equity s) * default (1 # 100) (risk_pct s).

(** The snapshot after the annotation; the cached dict is updated in
    place, so this is also what the cache holds afterwards. *)
Definition annotate (s : settings) (snap : snapshot) : snapshot :=
  {| scan_time := scan_time snap;
     market := market snap;
     account := account snap;
     headers := add_cost_header (headers snap);
     stocks := annotate_stock (risk_per_trade_of s) <$> stocks snap;
     cache_time := cache_time snap |}.

(** [api_data]: the response and the cache afterwards. *)
Definition api_data (cfg : config) (s : settings) (current_time : Q)
    (run : gog_run) (st : state) : response snapshot * state :=
  let '(d, st1) := get_cached_data cfg false current_time run st in
  match d with
  | None => (Http500 "Failed to fetch data", st1)
  | Some snap =>
      let snap' := annotate s snap in
      (Http200 snap',
       {| data := Some snap'; timestamp := timestamp st1;
          last_scan_time := last_scan_time st1;
          history := history st1 |})
  end.

(** [api_refresh]: a forced [get_cached_data]. *)
Definition api_refresh (cfg : config) (current_time : Q)
    (run : gog_run) (st : state) : response snapshot * state :=
  let '(d, st1) := get_cached_data cfg true current_time run st in
  match d with
  | None => (Http500 "Failed to refresh data", st1)
  | Some snap => (Http200 snap, st1)
  end.
End Annotate.


End Sizing.

(** ** JSON file store *)

Module Store.

(** The values [json.load] produces; [JNull] is Python's [None]. *)
#[local] Set Warnings "-register-all".
Inductive json :=
| JNull
| JBool (b : bool)
| JNum (q : Q)
| JStr (s : string)
| JList (items : list json)
| JObj (members : list (string * json)).

(** The part of the file system the store touches: the content of each
    existing file, and the paths that cannot be created, truncated or
    renamed onto (missing directory, no permission). *)
Record fs := {
  files : gmap string string;
  denied : gset string
}.

(** [open(path, 'w')]: creates or truncates; [None] is [OSError]. *)
Definition open_w (path : string) (d : fs) : option fs :=
  if bool_decide (path ∈ denied d) then None
  else Some {| files := <[path := ""]> (files d); denied := denied d |}.

Definition write (path content : string) (d : fs) : fs :=
  {| files := <[path := content]> (files d); denied := denied d |}.

(** [os.rename(src, dst)]: replaces [dst] in one step. *)
Definition rename (src dst : string) (d : fs) : option fs :=
  match files d !! src with
  | None => None
  | Some content =>
      if bool_decide (dst ∈ denied d) then None
      else Some {| files := <[dst := content]> (delete src (files d));
                   denied := denied d |}
  end.

Section Codec.
(** [json.dump(data, f, indent=2)] as the text it writes ([None]: it
    raises) and [json.load(f)] on a file content ([None]: it raises). *)
Variable dumps : json -> option string.
Variable loads : string -> option json.

(** [load_json_file]; a [default] of [None] is [JNull]. *)
Definition load_json_file (d : fs) (filepath : string) (default : json)
    : json :=
  let fallback :=
    match default with
    | JNull => JList []
    | _ => default
    end in
  match files d !! filepath with
  | Some content =>
      match loads content with
      | Some doc => doc
      | None => fallback
      end
  | None => fallback
  end.

(** [save_json_file]: the flag returned and the file system afterwards.
    The lock file is opened first; the temporary file is written and
    then renamed onto the target. *)
Definition save_json_file (d : fs) (filepath : string) (data : json)
    : bool * fs :=
  let tmp_path := (filepath ++ ".tmp")%string in
  let lock_path := (filepath ++ ".lock")%string in
  match open_w lock_path d with
  | None => (false, d)
  | Some d1 =>
      match open_w tmp_path d1 with
      | None => (false, d1)
      | Some d2 =>
          match dumps data with
          | None => (false, d2)
          | Some text =>
              let d3 := write tmp_path text d2 in
              match rename tmp_path filepath d3 with
              | None => (false, d3)
              | Some d4 => (true, d4)
              end
          end
      end
  end.
End Codec.

(** *** A small codec

    A writer and a reader for the documents without fractions and without
    escapes in strings, in the compact layout.  It instantiates the two
    library functions in the examples. *)
Definition plain_char (c : ascii) : bool :=
  let n := nat_of_ascii c in
  (32 <=? n)%nat && (n <? 127)%nat && negb (n =? 34)%nat && negb (n =? 92)%nat.

Definition dquote : ascii := ascii_of_nat 34.

Definition write_string (s : string) : option string :=
  if forallb plain_char (list_ascii_of_string s)
  then Some (String dquote (s ++ String dquote EmptyString))%string
  else None.

Definition join_with (sep : string) (l : list string) : string :=
  match l with
  | [] => ""
  | x :: l' => fold_left (fun acc y => (acc ++ sep ++ y)%string) l' x
  end.

Fixpoint write_json (j : json) : option string :=
  match j with
  | JNull => Some "null"
  | JBool true => Some "true"
  | JBool false => Some "false"
  | JNum q =>
      if (Z.pos (Qden q) =? 1)%Z then Some (pretty (Qnum q)) else None
  | JStr s => write_string s
  | JList items =>
      texts ← mapM write_json items;
      Some ("[" ++ join_with "," texts ++ "]")%string
  | JObj members =>
      texts ← mapM (fun kv =>
                 k ← write_string kv.1;
                 v ← write_json kv.2;
                 Some (k ++ ":" ++ v)%string) members;
      Some ("{" ++ join_with "," texts ++ "}")%string
  end.

Fixpoint read_digits (l : list ascii) : list ascii * list ascii :=
  match l with
  | c :: l' =>
      match PyNum.digit_val c with
      | Some _ => let '(ds, rest) := read_digits l' in (c :: ds, rest)
      | None => ([], l)
      end
  | [] => ([], [])
  end.

Fixpoint read_plain (l : list ascii) : option (list ascii * list ascii) :=
  match l with
  | [] => None
  | c :: l' =>
      if bool_decide (c = dquote) then Some ([], l')
      else if plain_char c then
        '(s, rest) ← read_plain l'; Some (c :: s, rest)
      else None
  end.

Definition read_number (neg : bool) (l : list ascii)
    : option (json * list ascii) :=
  let '(ds, rest) := read_digits l in
  match ds with
  | [] => None
  | _ =>
      n ← PyNum.digits_val 0 ds;
      Some (JNum (inject_Z (if neg then - n else n)), rest)
  end.

(** [fuel] bounds the nesting depth plus the number of members read. *)
Fixpoint read_value (fuel : nat) (l : list ascii)
    : option (json * list ascii) :=
  match fuel with
  | O => None
  | S fuel' =>
      let fix read_items (n : nat) (l : list ascii)
          : option (list json * list ascii) :=
        match n with
        | O => None
        | S n' =>
            '(v, rest) ← read_value fuel' l;
            match rest with
            | ","%char :: rest' =>
                '(vs, rest'') ← read_items n' rest'; Some (v :: vs, rest'')
            | "]"%char :: rest' => Some ([v], rest')
            | _ => None
            end
        end in
      let fix read_members (n : nat) (l : list ascii)
          : option (list (string * json) * list ascii) :=
        match n with
        | O => None
        | S n' =>
            match l with
            | c :: l1 =>
                guard (c = dquote);;
                '(k, l2) ← read_plain l1;
                match l2 with
                | ":"%char :: l3 =>
                    '(v, rest) ← read_value fuel' l3;
                    let kv := (string_of_list_ascii k, v) in
                    match rest with
                    | ","%char :: rest' =>
                        '(kvs, rest'') ← read_members n' rest';
                        Some (kv :: kvs, rest'')
                    | "}"%char :: rest' => Some ([kv], rest')
                    | _ => None
                    end
                | _ => None
                end
            | _ => None
            end
        end in
      match l with
      | "n"%char :: "u"%char :: "l"%char :: "l"%char :: rest =>
          Some (JNull, rest)
      | "t"%char :: "r"%char :: "u"%char :: "e"%char :: rest =>
          Some (JBool true, rest)
      | "f"%char :: "a"%char :: "l"%char :: "s"%char :: "e"%char :: rest =>
          Some (JBool false, rest)
      | "-"%char :: rest => read_number true rest
      | "["%char :: "]"%char :: rest => Some (JList [], rest)
      | "["%char :: rest =>
          '(vs, rest') ← read_items (length l) rest; Some (JList vs, rest')
      | "{"%char :: "}"%char :: rest => Some (JObj [], rest)
      | "{"%char :: rest =>
          '(kvs, rest') ← read_members (length l) rest;
          Some (JObj kvs, rest')
      | c :: rest =>
          if bool_decide (c = dquote) then
            '(s, rest') ← read_plain rest;
            Some (JStr (string_of_list_ascii s), rest')
          else read_number false l
      | [] => None
      end
  end.

Definition read_json (s : string) : option json :=
  let l := list_ascii_of_string s in
  match read_value (S (length l)) l with
  | Some (j, []) => Some j
  | _ => None
  end.

End Store.

(** ** Python string methods used by the validators (ASCII) *)

Module PyStr.

Definition is_space (c : ascii) : bool :=
  let n := nat_of_ascii c in
  (n =? 32)%nat || ((9 <=? n)%nat && (n <=? 13)%nat)
  || ((28 <=? n)%nat && (n <=? 31)%nat).

Fixpoint lstrip (l : list ascii) : list ascii :=
  match l with
  | c :: l' => if is_space c then lstrip l' else l
  | [] => []
  end.

(** [s.strip()]. *)
Definition strip (s : string) : string :=
  string_of_list_ascii (rev (lstrip (rev (lstrip (list_ascii_of_string s))))).

Definition upper_char (c : ascii) : ascii :=
  let n := nat_of_ascii c in
  if (97 <=? n)%nat && (n <=? 122)%nat then ascii_of_nat (n - 32) else c.

(** [s.upper()]. *)
Definition upper (s : string) : string :=
  string_of_list_ascii (map upper_char (list_ascii_of_string s)).

Definition is_alnum_char (c : ascii) : bool :=
  let n := nat_of_ascii c in
  ((48 <=? n)%nat && (n <=? 57)%nat)
  || ((65 <=? n)%nat && (n <=? 90)%nat)
  || ((97 <=? n)%nat && (n <=? 122)%nat).

(** [s.isalnum()]: false on the empty string. *)
Definition isalnum (s : string) : bool :=
  match list_ascii_of_string s with
  | [] => false
  | l => forallb is_alnum_char l
  end.

(** [s.replace(c, '')] for a one-character [c]. *)
Definition remove_char (c : ascii) (s : string) : string :=
  string_of_list_ascii (filter (fun x => x <> c) (list_ascii_of_string s)).

(** The ticker test shared by the three POST handlers: true when the
    ticker is accepted. *)
Definition ticker_ok (ticker : string) : bool :=
  negb (bool_decide (ticker = ""))
  && (String.length ticker <=? 10)%nat
  && isalnum (remove_char "-" (remove_char "." ticker)).

(** The order of Python's string comparison (by character code). *)
Definition str_le (a b : string) : Prop := String.leb a b = true.

#[global] Instance str_le_dec : RelDecision str_le :=
  fun a b => decide (String.leb a b = true).

(** [sorted(set(xs))] on strings. *)
Definition sorted_set (xs : list string) : list string :=
  merge_sort str_le (remove_dups xs).

End PyStr.

(** ** Request fields *)

(** A request field converted with [int(...)] or [float(...)]: absent,
    present with a value the conversion raises on, or converted. *)
Inductive arg (A : Type) :=
| Missing
| Malformed
| Given (a : A).
Arguments Missing {A}.
Arguments Malformed {A}.
Arguments Given {A} a.

(** [max((x for x in xs), default=0) + 1]. *)
Definition next_id (ids : list Z) : Z :=
  (match ids with
   | [] => 0
   | x :: rest => foldl Z.max x rest
   end + 1)%Z.

(** [sum(...)] over numbers. *)
Definition Qsum (xs : list Q) : Q := foldl Qplus 0%Q xs.

(** ** Covered calls *)

Module Calls.
Import PyNum PyStr.

Local Open Scope Q_scope.

(** A stored trade.  A key some reader takes with [.get] is optional;
    [pnl], [close_date] and [close_price] may hold [None]. *)
Record trade := {
  id : option Z;
  ticker : option string;
  sell_date : option string;
  expiry : string;
  strike : Q;
  contracts : Z;
  premium_per_contract : Q;
  premium_total : option Q;
  delta : Q;
  stock_price_at_sell : option Q;
  status : option string;
  close_date : option string;
  close_price : option Q;
  pnl : option (option Q);
  notes : option string;
  created_at : string
}.

(** The body of [POST /api/calls]. *)
Record add_request := {
  add_ticker : option string;
  add_contracts : arg Z;
  add_premium_per_contract : arg Q;
  add_strike : arg Q;
  add_sell_date : option string;
  add_expiry : option string;
  add_delta : option Q;
  add_stock_price : option Q;
  add_notes : option string
}.

Inductive add_response :=
| Status400 (error : string)
| Status201 (t : trade).

(** [api_calls_add] on the stored list: the response and the list that is
    saved ([today] and [now] are the two readings of the clock). *)
Definition api_calls_add (data : add_request) (today now : string)
    (trades : list trade) : add_response * list trade :=
  let ticker := upper (strip (default "SPY" (add_ticker data))) in
  if negb (ticker_ok ticker) then
    (Status400 "Invalid ticker (max 10 alphanumeric chars)", trades)
  else
    match add_contracts data with
    | Malformed => (Status400 "Invalid contracts (must be an integer)", trades)
    | c =>
        let contracts := match c with Given z => z | _ => 1%Z end in
        if (contracts <=? 0)%Z || (10000 <? contracts)%Z then
          (Status400 "Invalid contracts (must be 1-10,000)", trades)
        else
          match add_premium_per_contract data with
          | Malformed =>
              (Status400 "Invalid premium (must be a number)", trades)
          | p =>
              let premium_per := match p with Given q => q | _ => 0 end in
              if Qltb premium_per 0 || Qltb 10000 premium_per then
                (Status400 "Invalid premium (must be 0-$10,000)", trades)
              else
                match add_strike data with
                | Malformed =>
                    (Status400 "Invalid strike (must be a number)", trades)
                | s =>
                    let strike := match s with Given q => q | _ => 0 end in
                    if Qle_bool strike 0 || Qltb 100000 strike then
                      (Status400
                         "Invalid strike (must be positive, max $100k)",
                       trades)
                    else
                      let trade := {|
                        id := Some (next_id (map (fun t => default 0%Z (id t))
                                                 trades));
                        ticker := Some ticker;
                        sell_date := Some (default today (add_sell_date data));
                        expiry := default "" (add_expiry data);
                        strike := strike;
                        contracts := contracts;
                        premium_per_contract := premium_per;
                        premium_total :=
                          Some (py_round2
                                  (premium_per * inject_Z contracts * 100));
                        delta := default (1 # 10) (add_delta data);
                        stock_price_at_sell :=
                          Some (default 0 (add_stock_price data));
                        status := Some "open";
                        close_date := None;
                        close_price := None;
                        pnl := Some None;
                        notes := Some (default "" (add_notes data));
                        created_at := now
                      |} in
                      (Status201 trade, trades ++ [trade])
                end
          end
    end.

(** The body of [PATCH /api/calls/<id>]. *)
Record close_request := {
  close_status : option string;
  close_close_date : option string;
  close_buyback_price : option Q;
  close_notes : option string
}.

(** The block run on the trade whose id matches; [None] when
    [t['premium_total']] raises [KeyError]. *)
Definition close_trade (data : close_request) (today : string) (t : trade)
    : option trade :=
  let new_status := default "expired" (close_status data) in
  let new_close_date := Some (default today (close_close_date data)) in
  let new_notes := Some (default (default "" (notes t)) (close_notes data)) in
  premium ← premium_total t;
  let '(new_pnl, new_close_price) :=
    if bool_decide (new_status = "expired") then
      (premium, close_price t)
    else if bool_decide (new_status = "called_away") then
      let price_at_sell := default 0 (stock_price_at_sell t) in
      let appreciation :=
        (strike t - price_at_sell) * inject_Z (contracts t) * 100 in
      (py_round2 (premium + appreciation), close_price t)
    else
      let buyback :=
        default 0 (close_buyback_price data) * inject_Z (contracts t) * 100 in
      (py_round2 (premium - buyback),
       Some (default 0 (close_buyback_price data))) in
  Some {|
    id := id t; ticker := ticker t; sell_date := sell_date t;
    expiry := expiry t; strike := strike t; contracts := contracts t;
    premium_per_contract := premium_per_contract t;
    premium_total := premium_total t; delta := delta t;
    stock_price_at_sell := stock_price_at_sell t;
    status := Some new_status;
    close_date := new_close_date;
    close_price := new_close_price;
    pnl := Some (Some new_pnl);
    notes := new_notes;
    created_at := created_at t
  |}.

(** [api_calls_close]: the loop stops at the first trade with the id; the
    result is the list that is saved, [None] when the handler raises. *)
Fixpoint api_calls_close (trade_id : Z) (data : close_request)
    (today : string) (trades : list trade) : option (list trade) :=
  match trades with
  | [] => Some []
  | t :: rest =>
      if bool_decide (id t = Some trade_id) then
        t' ← close_trade data today t; Some (t' :: rest)
      else
        rest' ← api_calls_close trade_id data today rest; Some (t :: rest')
  end.

(** [api_calls_delete]. *)
Definition api_calls_delete (trade_id : Z) (trades : list trade)
    : list trade :=
  filter (fun t => id t <> Some trade_id) trades.

(** The dict [_summarize] returns. *)
Record summary := {
  total_premium : Q;
  total_pnl : Q;
  total_trades : nat;
  expired : nat;
  called_away : nat;
  open : nat;
  weekly_avg : Q;
  annualized_yield : Q
}.

(** [t.get('pnl', t.get('premium_total', 0))] as a summand; [None] is the
    [TypeError] of adding Python's [None]. *)
Definition pnl_term (t : trade) : option Q :=
  match pnl t with
  | None => Some (default 0 (premium_total t))
  | Some None => None
  | Some (Some q) => Some q
  end.

Definition has_status (s : string) (t : trade) : Prop := status t = Some s.

#[global] Instance has_status_dec s t : Decision (has_status s t).
Proof. unfold has_status. apply _. Defined.

Definition month_of (t : trade) : option string :=
  match sell_date t with
  | Some d => if bool_decide (d = "") then None else Some (substring 0 7 d)
  | None => None
  end.

(** [_summarize(subset, capital)]; [None] when the sum of the P&L raises. *)
Definition _summarize (subset : list trade) (capital : Q) : option summary :=
  match subset with
  | [] =>
      Some {| total_premium := 0; total_pnl := 0; total_trades := 0;
              expired := 0; called_away := 0; open := 0;
              weekly_avg := 0; annualized_yield := 0 |}
  | _ =>
      let total_premium := Qsum (map (fun t => default 0 (premium_total t))
                                     subset) in
      let closed := filter (fun t => ~ has_status "open" t) subset in
      pnls ← mapM pnl_term closed;
      let dates := sorted_set (omap month_of subset) in
      let months := Nat.max (length dates) 1 in
      Some {|
        total_premium := total_premium;
        total_pnl := Qsum pnls;
        total_trades := length subset;
        expired := length (filter (has_status "expired") subset);
        called_away := length (filter (has_status "called_away") subset);
        open := length (filter (has_status "open") subset);
        weekly_avg :=
          total_premium / inject_Z (Z.of_nat (Nat.max (length subset) 1));
        annualized_yield :=
          total_premium / inject_Z (Z.of_nat months) * 12
          / Qmax capital 1 * 100
      |}
  end.






End Calls.

(** ** Stock positions *)

Module Positions.
Import PyNum PyStr.

Local Open Scope Q_scope.

(** A stored position; the optional and nullable keys as for trades. *)
Record position := {
  id : option Z;
  ticker : string;
  account : option string;
  trade_type : string;
  entry_date : string;
  entry_price : Q;
  shares : Z;
  cost_basis : Q;
  stop_price : option Q;
  target_price : Q;
  setup_type : string;
  status : string;
  close_date : option string;
  close_price : option Q;
  pnl : option (option Q);
  notes : string;
  created_at : string
}.

(** The body of [POST /api/positions].  For the two optional prices
    [Missing] stands for every falsy value (absent, [None], [0], the empty
    string) and [Malformed] for a truthy one [float] raises on. *)
Record add_request := {
  add_ticker : option string;
  add_shares : arg Z;
  add_entry_price : arg Q;
  add_stop_price : arg Q;
  add_target_price : arg Q;
  add_trade_type : option string;
  add_account : option string;
  add_entry_date : option string;
  add_setup_type : option string;
  add_notes : option string
}.

Inductive add_response :=
| Status400 (error : string)
| Status500
| Status201 (p : position).

(** [float(data.get(k, 0)) if data.get(k) else 0]. *)
Definition optional_price (a : arg Q) : option Q :=
  match a with
  | Missing => Some 0
  | Malformed => None
  | Given q => Some q
  end.

(** [api_positions_add] on the stored list. *)
Definition api_positions_add (data : add_request) (today now : string)
    (positions : list position) : add_response * list position :=
  let ticker := upper (strip (default "" (add_ticker data))) in
  if negb (ticker_ok ticker) then
    (Status400 "Invalid ticker (max 10 alphanumeric chars)", positions)
  else
    match add_shares data with
    | Malformed =>
        (Status400 "Invalid shares (must be an integer)", positions)
    | sh =>
        let shares := match sh with Given z => z | _ => 0%Z end in
        if (shares <=? 0)%Z || (1000000 <? shares)%Z then
          (Status400 "Invalid shares (must be 1-1,000,000)", positions)
        else
          match add_entry_price data with
          | Malformed =>
              (Status400 "Invalid entry price (must be a number)", positions)
          | e =>
              let entry_price := match e with Given q => q | _ => 0 end in
              if Qle_bool entry_price 0 || Qltb 100000 entry_price then
                (Status400
                   "Invalid entry price (must be positive, max $100k)",
                 positions)
              else
                match optional_price (add_stop_price data),
                      optional_price (add_target_price data) with
                | Some stop_price, Some target_price =>
                    let trade_type := default "long" (add_trade_type data) in
                    if negb (bool_decide (trade_type = "long")
                             || bool_decide (trade_type = "short")) then
                      (Status400
                         "Invalid trade_type (must be long or short)",
                       positions)
                    else
                      let position := {|
                        id := Some (next_id (map (fun p => default 0%Z (id p))
                                                 positions));
                        ticker := ticker;
                        account := Some (default "default" (add_account data));
                        trade_type := trade_type;
                        entry_date := default today (add_entry_date data);
                        entry_price := entry_price;
                        shares := shares;
                        cost_basis :=
                          py_round2 (inject_Z shares * entry_price);
                        stop_price := Some stop_price;
                        target_price := target_price;
                        setup_type := default "" (add_setup_type data);
                        status := "open";
                        close_date := None;
                        close_price := None;
                        pnl := Some None;
                        notes := default "" (add_notes data);
                        created_at := now
                      |} in
                      (Status201 position, positions ++ [position])
                | _, _ => (Status500, positions)
                end
          end
    end.

(** The body of [PATCH /api/positions/<id>]; each key may be absent. *)
Record update_request := {
  upd_stop_price : option Q;
  upd_close_price : option Q;
  upd_close_date : option string;
  upd_notes : option string
}.

(** The block run on the position whose id matches. *)
Definition update_position (data : update_request) (today : string)
    (p : position) : position :=
  let stop := match upd_stop_price data with
              | Some s => Some s
              | None => stop_price p
              end in
  let note := default (notes p) (upd_notes data) in
  match upd_close_price data with
  | Some close =>
      {| id := id p; ticker := ticker p; account := account p;
         trade_type := trade_type p; entry_date := entry_date p;
         entry_price := entry_price p; shares := shares p;
         cost_basis := cost_basis p; stop_price := stop;
         target_price := target_price p; setup_type := setup_type p;
         status := "closed";
         close_date := Some (default today (upd_close_date data));
         close_price := Some close;
         pnl := Some (Some
                  (if bool_decide (trade_type p = "long") then
                     py_round2
                       ((close - entry_price p) * inject_Z (shares p))
                   else
                     py_round2
                       ((entry_price p - close) * inject_Z (shares p))));
         notes := note; created_at := created_at p |}
  | None =>
      {| id := id p; ticker := ticker p; account := account p;
         trade_type := trade_type p; entry_date := entry_date p;
         entry_price := entry_price p; shares := shares p;
         cost_basis := cost_basis p; stop_price := stop;
         target_price := target_price p; setup_type := setup_type p;
         status := status p; close_date := close_date p;
         close_price := close_price p; pnl := pnl p;
         notes := note; created_at := created_at p |}
  end.

(** [api_positions_update]: the first position with the id is updated. *)
Fixpoint api_positions_update (position_id : Z) (data : update_request)
    (today : string) (positions : list position) : list position :=
  match positions with
  | [] => []
  | p :: rest =>
      if bool_decide (id p = Some position_id) then
        update_position data today p :: rest
      else p :: api_positions_update position_id data today rest
  end.

(** [api_positions_delete]. *)
Definition api_positions_delete (position_id : Z) (positions : list position)
    : list position :=
  filter (fun p => id p <> Some position_id) positions.

(** The dict [_summarize] returns. *)
Record summary := {
  total_capital : Q;
  total_pnl : Q;
  open_count : nat;
  closed_count : nat;
  win_count : nat;
  loss_count : nat;
  win_rate : Q;
  avg_r_multiple : Q
}.

(** [p.get('pnl', 0)] used as a number; [None] is the [TypeError] on
    Python's [None]. *)
Definition pnl_value (p : position) : option Q :=
  match pnl p with
  | None => Some 0
  | Some None => None
  | Some (Some q) => Some q
  end.

(** One iteration of the R-multiple loop: [Some None] when the position is
    skipped, [Some (Some r)] when [r] is appended, [None] when
    [p['close_price']] is [None] and the subtraction raises. *)
Definition r_multiple_of (p : position) : option (option Q) :=
  let risk := Qabs (entry_price p - default (entry_price p) (stop_price p)) in
  if Qltb 0 risk then
    close ← close_price p;
    let pnl_per_share :=
      if bool_decide (trade_type p = "long") then close - entry_price p
      else entry_price p - close in
    Some (Some (pnl_per_share / risk))
  else Some None.

(** [_summarize(subset)]; [None] when it raises. *)
Definition _summarize (subset : list position) : option summary :=
  match subset with
  | [] =>
      Some {| total_capital := 0; total_pnl := 0; open_count := 0;
              closed_count := 0; win_count := 0; loss_count := 0;
              win_rate := 0; avg_r_multiple := 0 |}
  | _ =>
      let open_positions := filter (fun p => status p = "open") subset in
      let closed_positions := filter (fun p => status p = "closed") subset in
      let total_capital := Qsum (map cost_basis open_positions) in
      pnls ← mapM pnl_value closed_positions;
      let wins := filter (fun x => Qltb 0 x = true) pnls in
      let losses := filter (fun x => Qle_bool x 0 = true) pnls in
      let win_rate :=
        match closed_positions with
        | [] => 0
        | _ => inject_Z (Z.of_nat (length wins))
               / inject_Z (Z.of_nat (length closed_positions)) * 100
        end in
      rs ← mapM r_multiple_of closed_positions;
      let r_multiples := omap (fun r => r) rs in
      let avg_r :=
        match r_multiples with
        | [] => 0
        | _ => Qsum r_multiples / inject_Z (Z.of_nat (length r_multiples))
        end in
      Some {|
        total_capital := total_capital;
        total_pnl := Qsum pnls;
        open_count := length open_positions;
        closed_count := length closed_positions;
        win_count := length wins;
        loss_count := length losses;
        win_rate := win_rate;
        avg_r_multiple := avg_r
      |}
  end.

Record positions_summary := {
  overall : summary;
  accounts : list string;
  by_account : list (string * summary)
}.

Definition account_of (p : position) : string :=
  default "default" (account p).

Definition _positions_summary (positions : list position)
    : option positions_summary :=
  all ← _summarize positions;
  let accounts := sorted_set (map account_of positions) in
  buckets ← mapM (fun acc =>
                 s ← _summarize (filter (fun p => account_of p = acc)
                                        positions);
                 Some (acc, s)) accounts;
  Some {| overall := all; accounts := accounts; by_account := buckets |}.

End Positions.

(** ** Runs of the dashboard and of the two stores *)

Module Runs.
Import Sheet Cache Sizing.

(** The cache states the routes can produce from a fresh process:
    [/api/refresh] and [/api/export] go through [get_cached_data],
    [/api/data] also annotates the cached snapshot. *)
Inductive reachable (py_float : string -> option Q) (cfg : config)
    : state -> Prop :=
| reach_initial : reachable py_float cfg initial
| reach_get st force_refresh current_time run :
    reachable py_float cfg st ->
    reachable py_float cfg
      (get_cached_data cfg force_refresh current_time run st).2
| reach_api_data st s current_time run :
    reachable py_float cfg st ->
    reachable py_float cfg (api_data py_float cfg s current_time run st).2.

(** No two neighbours of the list are equal. *)
Fixpoint no_repeat (l : list string) : Prop :=
  match l with
  | x :: (y :: _) as l' => x <> y /\ no_repeat l'
  | _ => True
  end.

(** What the gate remembers as the last archived scan time is the scan
    time of the newest entry of the history, and the history never holds
    the same scan time twice in a row. *)
Definition gate_invariant (st : state) : Prop :=
  last_scan_time st = scan_time <$> last (history st)
  /\ no_repeat (scan_time <$> history st).



(** Requests against the covered-call store. *)
Inductive call_op :=
| CallAdd (data : Calls.add_request) (today now : string)
| CallClose (trade_id : Z) (data : Calls.close_request) (today : string)
| CallDelete (trade_id : Z).

(** The stored list after one request; a handler that raises saves
    nothing. *)
Definition call_step (trades : list Calls.trade) (o : call_op)
    : list Calls.trade :=
  match o with
  | CallAdd data today now => (Calls.api_calls_add data today now trades).2
  | CallClose i data today =>
      default trades (Calls.api_calls_close i data today trades)
  | CallDelete i => Calls.api_calls_delete i trades
  end.

Definition call_run (ops : list call_op) (trades : list Calls.trade)
    : list Calls.trade :=
  foldl call_step trades ops.


(** Requests against the position store. *)
Inductive position_op :=
| PosAdd (data : Positions.add_request) (today now : string)
| PosUpdate (position_id : Z) (data : Positions.update_request)
    (today : string)
| PosDelete (position_id : Z).

Definition position_step (positions : list Positions.position)
    (o : position_op) : list Positions.position :=
  match o with
  | PosAdd data today now =>
      (Positions.api_positions_add data today now positions).2
  | PosUpdate i data today =>
      Positions.api_positions_update i data today positions
  | PosDelete i => Positions.api_positions_delete i positions
  end.

Definition position_run (ops : list position_op)
    (positions : list Positions.position) : list Positions.position :=
  foldl position_step positions ops.


End Runs.

(** ** Statements taken from the specification

    Where the program departs from a sentence of the specification, the
    sentence is written down here as it stands, to be compared with the
    program. *)

Module Stated.
Import PyNum Sheet Cache Sizing Runs.

Local Open Scope Q_scope.





(** Section 4.3: a failed fetch is reported to the caller.  The caller of
    [get_cached_data] sees the returned value only, so the value returned
    after the failure has to differ from every value the same cache returns
    on a call during which no fetch fails. *)
Definition failure_reported (cfg : config) (st : state)
    (force_refresh : bool) (current_time : Q) (run : gog_run) : Prop :=
  forall force' time' run',
    wants_fetch cfg force' time' st = false \/
    fetch_sheet_data cfg run' <> None ->
    (get_cached_data cfg force_refresh current_time run st).1
    <> (get_cached_data cfg force' time' run' st).1.

Definition stale_on_failure (cfg : config) : Prop :=
  forall st snap force_refresh current_time run,
    data st = Some snap ->
    wants_fetch cfg force_refresh current_time st = true ->
    fetch_sheet_data cfg run = None ->
    let '(r, st') := get_cached_data cfg force_refresh current_time run st in
    data st' = data st /\ timestamp st' = timestamp st /\ r = Some snap
    /\ failure_reported cfg st force_refresh current_time run.

(** A fetched array that parses to no snapshot replaces the cached
    snapshot and restarts the clock. *)
Definition unparsable_discards (cfg : config) : Prop :=
  forall st force_refresh current_time run raw,
    wants_fetch cfg force_refresh current_time st = true ->
    fetch_sheet_data cfg run = Some raw ->
    parse_sheet_data raw (timestamp st) = None ->
    let '(r, st') := get_cached_data cfg force_refresh current_time run st in
    r = None /\ data st' = None /\ timestamp st' = current_time.

End Stated.

(** ** Sample data *)

Module Sample.
Import Sheet Cache Sizing.

Local Open Scope Q_scope.

Definition cfg : config :=
  {| SHEET_ID := "sheet-1"; GOG_ACCOUNT := "me@example.org";
     CACHE_DURATION := 300 |}.

(** A sheet in the fixed layout, with three data rows: a computable one,
    one whose stop is above the pivot and one with an unreadable pivot. *)
Definition sheet : list (list string) :=
  [ ["CANSLIM Scanner"; ""; "2024-05-01 09:30"];
    ["Confirmed Uptrend"; ""; "3"; ""; "YES"];
    ["$100,000"; ""; "$1,000"; ""; "4"];
    [];
    ["Ticker"; "Pivot"; "Stop"; "Shares"];
    ["AAPL"; "3.25"; "0.25"];
    ["MSFT"; "10"; "12"];
    ["NVDA"; "n/a"; "5"] ].

Definition later_sheet : list (list string) :=
  [ ["CANSLIM Scanner"; ""; "2024-05-02 09:30"];
    ["Confirmed Uptrend"; ""; "3"; ""; "YES"];
    ["$100,000"; ""; "$1,000"; ""; "4"];
    [];
    ["Ticker"; "Pivot"; "Stop"; "Shares"];
    ["AAPL"; "3.25"; "0.25"] ].

Definition short_sheet : list (list string) :=
  [ ["CANSLIM Scanner"; ""; "2024-05-01 09:30"]; ["Confirmed Uptrend"] ].

Definition ok (raw : list (list string)) : gog_run :=
  RunExit 0 (JsonValues (Some raw)).

Definition failed : gog_run := RunExit 1 BadJson.

(** No settings file: both defaults apply. *)
Definition no_settings : settings :=
  {| account_equity := None; risk_pct := None; max_positions := None |}.

Definition sheet_headers : list string := ["Ticker"; "Pivot"; "Stop"; "Shares"].

Definition aapl : gmap string string :=
  make_stock sheet_headers ["AAPL"; "3.25"; "0.25"].

Definition msft : gmap string string :=
  make_stock sheet_headers ["MSFT"; "10"; "12"].

Definition nvda : gmap string string :=
  make_stock sheet_headers ["NVDA"; "n/a"; "5"].

(** What [sheet] parses to. *)
Definition scan : snapshot :=
  {| scan_time := "2024-05-01 09:30";
     market := {| regime := "Confirmed Uptrend"; dist_days := "3";
                  buy_ok := "YES" |};
     account := {| balance := "$100,000"; risk_per_trade := "$1,000";
                   actionable := "4" |};
     headers := sheet_headers;
     stocks := [aapl; msft; nvda];
     cache_time := 0 |}.

(** An empty data directory in which every path can be written. *)
Definition empty_disk : Store.fs :=
  {| Store.files := ∅; Store.denied := ∅ |}.

(** A data directory whose settings file cannot be replaced. *)
Definition locked_disk : Store.fs :=
  {| Store.files := {[ "data/settings.json" := "{}" ]};
     Store.denied := {[ "data/settings.json" ]} |}.

Definition settings_doc : Store.json :=
  Store.JObj [("account_equity", Store.JNum 250000);
              ("risk_pct", Store.JNum 1);
              ("max_positions", Store.JNum 6);
              ("watch", Store.JList [Store.JStr "AAPL"; Store.JNull;
                                     Store.JBool true])].

(** A request that sells one call on SPY. *)
Definition sell_call : Calls.add_request :=
  {| Calls.add_ticker := Some "spy"; Calls.add_contracts := Given 10%Z;
     Calls.add_premium_per_contract := Given (5 # 2);
     Calls.add_strike := Given 105; Calls.add_sell_date := None;
     Calls.add_expiry := Some "2024-05-17"; Calls.add_delta := None;
     Calls.add_stock_price := Some 100; Calls.add_notes := None |}.

Definition call_add : Runs.call_op :=
  Runs.CallAdd sell_call "2024-05-01" "2024-05-01T09:30:00".

Definition called_away_request : Calls.close_request :=
  {| Calls.close_status := Some "called_away";
     Calls.close_close_date := None; Calls.close_buyback_price := None;
     Calls.close_notes := None |}.

(** Buying one contract back at 1.23456 a share. *)
Definition buyback_request : Calls.close_request :=
  {| Calls.close_status := Some "closed";
     Calls.close_close_date := None;
     Calls.close_buyback_price := Some (123456 # 100000);
     Calls.close_notes := None |}.


Definition sell_qqq : Calls.add_request :=
  {| Calls.add_ticker := Some "QQQ"; Calls.add_contracts := Given 2%Z;
     Calls.add_premium_per_contract := Given (3 # 2);
     Calls.add_strike := Given 450; Calls.add_sell_date := Some "2024-06-03";
     Calls.add_expiry := Some "2024-06-21"; Calls.add_delta := None;
     Calls.add_stock_price := Some 440; Calls.add_notes := None |}.

(** Three trades on two tickers: one called away, one bought back, one
    still open. *)
Definition book : list Calls.trade :=
  Runs.call_run
    [call_add;
     Runs.CallAdd sell_qqq "2024-06-03" "2024-06-03T10:00:00";
     call_add;
     Runs.CallClose 1 called_away_request "2024-05-17";
     Runs.CallClose 2 buyback_request "2024-06-10"]
    [].

(** A long position of ten shares at 50 with no stop given. *)
Definition buy_without_stop : Positions.add_request :=
  {| Positions.add_ticker := Some "aapl"; Positions.add_shares := Given 10%Z;
     Positions.add_entry_price := Given 50;
     Positions.add_stop_price := Missing;
     Positions.add_target_price := Missing;
     Positions.add_trade_type := None; Positions.add_account := None;
     Positions.add_entry_date := None; Positions.add_setup_type := None;
     Positions.add_notes := None |}.

Definition position_add : Runs.position_op :=
  Runs.PosAdd buy_without_stop "2024-05-01" "2024-05-01T09:30:00".

Definition sell_at_60 : Positions.update_request :=
  {| Positions.upd_stop_price := None; Positions.upd_close_price := Some 60;
     Positions.upd_close_date := None; Positions.upd_notes := None |}.

(** The cache after one successful fetch at time 1000. *)
Definition warm : state :=
  (get_cached_data cfg false 1000 (ok sheet) initial).2.

End Sample.


(** ** Further invariants of the cache gate *)

Module GateInvariants.
Import Sheet Cache.

(** The scan time of the cached snapshot is the one remembered as
    archived. *)
Definition served_is_archived (st : state) : Prop :=
  forall snap, data st = Some snap -> last_scan_time st = Some (scan_time snap).

End GateInvariants.

(** ** What the handlers guarantee about stored entities *)

Module Stored.
Import PyNum PyStr.

Local Open Scope Q_scope.



End Stored.

(** ** Price alerts *)

Module Alerts.
Import PyNum PyStr.

Local Open Scope Q_scope.

(** An entry of [alerts.json]. *)
Record alert := {
  ticker : string;
  condition : string;
  price : Q;
  created : string;
  triggered : bool
}.

(** The body of [POST /api/alerts]. *)
Record add_request := {
  add_ticker : option string;
  add_condition : option string;
  add_price : arg Q
}.

Inductive add_response :=
| Status400 (error : string)
| Status500 (error : string)
| Status201 (a : alert).


Inductive delete_response :=
| Deleted200 (deleted : alert)
| Invalid404
| Failed500.

(** [delete_alert]: [alerts.pop(index)] after the bounds check. *)
Definition delete_alert (index : Z) (saved : bool) (alerts : list alert)
    : delete_response * list alert :=
  if (index <? 0)%Z || (Z.of_nat (length alerts) <=? index)%Z then
    (Invalid404, alerts)
  else
    match alerts !! Z.to_nat index with
    | Some deleted =>
        if saved then (Deleted200 deleted, delete (Z.to_nat index) alerts)
        else (Failed500, alerts)
    | None => (Invalid404, alerts)
    end.

End Alerts.

(** ** Earnings dates *)

Module Earnings.
Import PyStr.

(** The body of [POST /api/earnings]. *)
Record set_request := {
  set_ticker : option string;
  set_date : option string
}.

Inductive set_response :=
| Status400
| Status500
| Status200 (ticker date : string).

(** [set_earnings] on the stored mapping. *)
Definition set_earnings (data : set_request) (saved : bool)
    (earnings : gmap string string) : set_response * gmap string string :=
  let ticker := upper (default "" (set_ticker data)) in
  let date := default "" (set_date data) in
  if bool_decide (ticker = "") || bool_decide (date = "") then
    (Status400, earnings)
  else if saved then (Status200 ticker date, <[ticker := date]> earnings)
  else (Status500, earnings).

End Earnings.

(** ** Scanner settings and the shared defaults *)

Module Settings.

Local Open Scope Q_scope.

(** The module-level [DEFAULT_SETTINGS] dict, which [load_json_file] hands
    out itself when the file cannot be read, and the settings file
    ([None]: absent or unreadable). *)
Record process := {
  DEFAULT_SETTINGS : gmap string Q;
  settings_file : option (gmap string Q)
}.

Definition fresh : process :=
  {| DEFAULT_SETTINGS := {[ "account_equity" := 100000;
                            "risk_pct" := 1 # 100;
                            "max_positions" := 6 ]};
     settings_file := None |}.

(** [get_settings]: a loaded dict is completed from the defaults; the
    defaults dict itself needs no completion. *)
Definition get_settings (p : process) : gmap string Q :=
  match settings_file p with
  | Some loaded => loaded ∪ DEFAULT_SETTINGS p
  | None => DEFAULT_SETTINGS p
  end.

(** The body of [POST /api/settings]: [Missing] is a key that is not in
    the body. *)
Record update_request := {
  upd_account_equity : arg Q;
  upd_risk_pct : arg Q;
  upd_max_positions : arg Z
}.

(** The dict [update_settings] works on, with the writes done so far; when
    the file cannot be read that dict is [DEFAULT_SETTINGS]. *)
Definition with_dict (p : process) (d : gmap string Q) : process :=
  match settings_file p with
  | Some _ => p
  | None => {| DEFAULT_SETTINGS := d; settings_file := None |}
  end.

(** One [if k in data: settings[k] = conv(data[k])] step; [None] when the
    conversion raises. *)
Definition assign {A} (k : string) (conv : A -> Q) (a : arg A)
    (d : gmap string Q) : option (gmap string Q) :=
  match a with
  | Missing => Some d
  | Malformed => None
  | Given v => Some (<[k := conv v]> d)
  end.

(** [update_settings]: the body of the response ([None]: status 500) and
    the process afterwards. *)
Definition update_settings (data : update_request) (saved : bool)
    (p : process) : option (gmap string Q) * process :=
  let d0 := default (DEFAULT_SETTINGS p) (settings_file p) in
  match assign "account_equity" id (upd_account_equity data) d0 with
  | None => (None, with_dict p d0)
  | Some d1 =>
      match assign "risk_pct" id (upd_risk_pct data) d1 with
      | None => (None, with_dict p d1)
      | Some d2 =>
          match assign "max_positions" inject_Z (upd_max_positions data) d2
          with
          | None => (None, with_dict p d2)
          | Some d3 =>
              if saved then
                (Some d3,
                 {| DEFAULT_SETTINGS := DEFAULT_SETTINGS (with_dict p d3);
                    settings_file := Some d3 |})
              else (None, with_dict p d3)
          end
      end
  end.

(** The risk budget [api_data] computes: it loads the file with an empty
    default of its own and falls back on two literals. *)
Definition risk_per_trade (p : process) : Q :=
  let settings := default ∅ (settings_file p) in
  default 100000 (settings !! "account_equity")
  * default (1 # 100) (settings !! "risk_pct").

(** The processes a sequence of settings updates leads to. *)
Inductive reachable : process -> Prop :=
| reach_fresh : reachable fresh
| reach_update data saved p :
    reachable p -> reachable (update_settings data saved p).2.

End Settings.

(** ** Month navigation of the calendar *)

Module Calendar.

(** The two conditional expressions of [calendar_view]. *)
Definition prev_month (year month : Z) : Z * Z :=
  if (month =? 1)%Z then ((year - 1)%Z, 12%Z) else (year, (month - 1)%Z).

Definition next_month (year month : Z) : Z * Z :=
  if (month =? 12)%Z then ((year + 1)%Z, 1%Z) else (year, (month + 1)%Z).

End Calendar.

(** ** Characters of an accepted ticker *)

Module TickerChars.

(** A digit, an upper-case ASCII letter, a dot or a hyphen. *)
Definition ticker_char (c : ascii) : bool :=
  let n := nat_of_ascii c in
  ((48 <=? n)%nat && (n <=? 57)%nat)
  || ((65 <=? n)%nat && (n <=? 90)%nat)
  || (n =? 46)%nat || (n =? 45)%nat.

End TickerChars.

(** ** CSV export *)

Module Csv.
Import Sheet Cache.

Definition lower_char (c : ascii) : ascii :=
  let n := nat_of_ascii c in
  if (65 <=? n)%nat && (n <=? 90)%nat then ascii_of_nat (n + 32) else c.

(** [s.lower()] (ASCII). *)
Definition lower (s : string) : string :=
  string_of_list_ascii (map lower_char (list_ascii_of_string s)).

(** [needle in hay] on strings. *)
Fixpoint contains (needle hay : string) : bool :=
  String.prefix needle hay
  || match hay with
     | EmptyString => false
     | String _ rest => contains needle rest
     end.

(** The test of the loop of [api_export]: true when the stock is
    written. *)
Definition passes (filter_text : string) (stock : gmap string string)
    : bool :=
  if bool_decide (filter_text = "") then true
  else contains filter_text (lower (default "" (stock !! "Ticker"))).

(** [[stock.get(header, '') for header in data['headers']]]. *)
Definition row_of (hdrs : list string) (stock : gmap string string)
    : list string :=
  map (fun header => default "" (stock !! header)) hdrs.

(** The rows handed to the CSV writer, the header row first; [filter_arg]
    is the [filter] query argument. *)
Definition export_rows (filter_arg : option string) (snap : snapshot)
    : list (list string) :=
  let filter_text := lower (default "" filter_arg) in
  headers snap
  :: map (row_of (headers snap))
         (filter (fun stock => passes filter_text stock = true)
                 (stocks snap)).

(** [api_export]: the rows of the response ([None]: status 500) and the
    cache afterwards. *)
Definition api_export (cfg : config) (filter_arg : option string)
    (current_time : Q) (run : gog_run) (st : state)
    : option (list (list string)) * state :=
  let '(d, st1) := get_cached_data cfg false current_time run st in
  (export_rows filter_arg <$> d, st1).

End Csv.

(** ** Daily routine journal *)

Module Routine.

(** The document of one date. *)
Record entry := {
  date : option string;
  updated_at : option string;
  premarket : option (gmap string string);
  postclose : option (gmap string string)
}.

(** The routines directory: for the date of each [.json] file its decoded
    content, or [None] when the file does not decode. *)
Abbreviation dir := (gmap string (option entry)).

(** [load_routine]; [None] when [json.loads] raises. *)
Definition load_routine (d : dir) (date_str : string) : option entry :=
  match d !! date_str with
  | Some (Some e) => Some e
  | Some None => None
  | None => Some {| date := Some date_str; updated_at := None;
                    premarket := None; postclose := None |}
  end.

(** [save_routine]; [written] is false when opening, writing or renaming
    raises, and then the handler fails. *)
Definition save_routine (date_str : string) (data : entry) (now : string)
    (written : bool) (d : dir) : option dir :=
  if written then
    Some (<[date_str := Some {| date := Some date_str;
                                updated_at := Some now;
                                premarket := premarket data;
                                postclose := postclose data |}]> d)
  else None.

(** [key[n:]]. *)
Fixpoint string_drop (n : nat) (s : string) : string :=
  match n, s with
  | O, _ => s
  | S n', String _ rest => string_drop n' rest
  | S _, EmptyString => EmptyString
  end.

(** The loop over [request.form]: the fields whose name starts with
    [routine_], under the rest of the name. *)
Definition routine_fields (form : gmap string string) : gmap string string :=
  list_to_map
    (omap (fun kv : string * string =>
             if String.prefix "routine_" kv.1
             then Some (string_drop 8 kv.1, kv.2) else None)
          (map_to_list form)).

(** [data[routine_type] = fields] for one of the two phases. *)
Definition set_phase (routine_type : string) (fields : gmap string string)
    (data : entry) : entry :=
  if bool_decide (routine_type = "premarket") then
    {| date := date data; updated_at := updated_at data;
       premarket := Some fields; postclose := postclose data |}
  else
    {| date := date data; updated_at := updated_at data;
       premarket := premarket data; postclose := Some fields |}.

Definition get_phase (routine_type : string) (data : entry)
    : option (gmap string string) :=
  if bool_decide (routine_type = "premarket") then premarket data
  else postclose data.

Definition known_type (routine_type : string) : bool :=
  bool_decide (routine_type = "premarket")
  || bool_decide (routine_type = "postclose").

Inductive form_response :=
| Invalid404
| Raised500
| Redirect (date_str : string)
| Render (existing : gmap string string).

(** [routine_form]: [posted] is the form of a POST, [None] for a GET. *)
Definition routine_form (date_str routine_type : string)
    (posted : option (gmap string string)) (now : string) (written : bool)
    (d : dir) : form_response * dir :=
  if negb (known_type routine_type) then (Invalid404, d)
  else
    match load_routine d date_str with
    | None => (Raised500, d)
    | Some data =>
        match posted with
        | Some form =>
            let data' := set_phase routine_type (routine_fields form) data in
            match save_routine date_str data' now written d with
            | Some d' => (Redirect date_str, d')
            | None => (Raised500, d)
            end
        | None => (Render (default ∅ (get_phase routine_type data)), d)
        end
    end.

(** The body of [POST /api/routine/<date>]. *)
Record save_request := {
  req_type : option string;
  req_data : option (gmap string string)
}.

(** [api_routine_save]: true when it answers [{'ok': True}]. *)
Definition api_routine_save (date_str : string) (req : save_request)
    (now : string) (written : bool) (d : dir) : bool * dir :=
  match load_routine d date_str with
  | None => (false, d)
  | Some data =>
      let rtype := default "premarket" (req_type req) in
      let data' :=
        if known_type rtype
        then set_phase rtype (default ∅ (req_data req)) data
        else data in
      match save_routine date_str data' now written d with
      | Some d' => (true, d')
      | None => (false, d)
      end
  end.

(** [bool(data.get(k))] for a phase: present and not empty. *)
Definition filled (phase : option (gmap string string)) : bool :=
  match phase with
  | Some fields => negb (bool_decide (fields = ∅))
  | None => false
  end.

(** [get_all_routine_dates]: the two flags of every date whose file
    decodes. *)
Definition get_all_routine_dates (d : dir) : gmap string (bool * bool) :=
  omap (fun file : option entry =>
          e ← file; Some (filled (premarket e), filled (postclose e))) d.

End Routine.

(** ** More sample data *)

Module Sample2.

Local Open Scope Q_scope.

(** A settings update that sends a new account size only. *)
Definition bigger_account : Settings.update_request :=
  {| Settings.upd_account_equity := Given 250000;
     Settings.upd_risk_pct := Missing;
     Settings.upd_max_positions := Missing |}.

Definition full_update : Settings.update_request :=
  {| Settings.upd_account_equity := Given 50000;
     Settings.upd_risk_pct := Given (2 # 100);
     Settings.upd_max_positions := Given 4%Z |}.


Definition three_alerts : list Alerts.alert :=
  [ {| Alerts.ticker := "AAPL"; Alerts.condition := "above";
       Alerts.price := 200; Alerts.created := "2024-05-01T09:00:00";
       Alerts.triggered := false |};
    {| Alerts.ticker := "MSFT"; Alerts.condition := "below";
       Alerts.price := 400; Alerts.created := "2024-05-01T09:05:00";
       Alerts.triggered := false |};
    {| Alerts.ticker := "NVDA"; Alerts.condition := "above";
       Alerts.price := 950; Alerts.created := "2024-05-01T09:10:00";
       Alerts.triggered := true |} ].

End Sample2.

(** ** Sample routine data *)

Module Sample3.

(** A posted pre-market form: two journal fields and the submit button. *)
Definition morning_form : gmap string string :=
  {[ "routine_mood" := "calm"; "routine_plan" := "wait for pivot";
     "submit" := "Save" ]}.

Definition evening_fields : gmap string string :=
  {[ "review" := "followed the plan" ]}.

(** A directory with the evening of one day journalled. *)
Definition journal : gmap string (option Routine.entry) :=
  {[ "2024-05-01" :=
       Some {| Routine.date := Some "2024-05-01";
               Routine.updated_at := Some "2024-05-01T21:00:00";
               Routine.premarket := None;
               Routine.postclose := Some evening_fields |} ]}.

End Sample3.
(** * Properties *)

(** ** Rationals and Python's number functions *)

Section NumFacts.
Import PyNum.
Local Open Scope Q_scope.

Lemma Qltb_lt (x y : Q) : Qltb x y = true <-> x < y.
Proof.
  unfold Qltb. rewrite negb_true_iff, <- not_true_iff_false, Qle_bool_iff.
  split; [apply Qnot_le_lt | apply Qlt_not_le].
Qed.

Lemma Qltb_ge (x y : Q) : Qltb x y = false <-> y <= x.
Proof.
  unfold Qltb. rewrite negb_false_iff, Qle_bool_iff. reflexivity.
Qed.


End NumFacts.

(** ** The sheet parser *)

Section SheetFacts.
Import Sheet Sample.

Lemma short_sheet_no_snapshot (raw_values : list (list string)) (ts : Q) :
  (length raw_values < 5)%nat -> parse_sheet_data raw_values ts = None.
Proof.
  intros Hlen. unfold parse_sheet_data.
  destruct (Nat.ltb_spec (length raw_values) 5) as [_ | Hge]; [| lia].
  now rewrite orb_true_r.
Qed.

(** C8. A sheet of fewer than five rows, the empty one included, parses to
    no snapshot.  [parse_sheet_data] is a total function into
    [option snapshot]: on an array of strings it has no other outcome, an
    exception in particular. *)
Theorem parse_short_sheet (raw_values : list (list string)) (ts : Q) :
  (length raw_values < 5)%nat -> parse_sheet_data raw_values ts = None.
Proof.
  intros Hlen. unfold parse_sheet_data.
  destruct (bool_decide (raw_values = [])); [reflexivity |].
  simpl. apply Nat.ltb_lt in Hlen. now rewrite Hlen.
Qed.

Lemma parse_short_sheet_witness :
  (length short_sheet < 5)%nat /\ parse_sheet_data short_sheet 0 = None.
Proof.
  split; [simpl; lia | apply parse_short_sheet; simpl; lia].
Defined.

(** From five rows on the parser always builds a snapshot. *)
Lemma parse_long_sheet (raw_values : list (list string)) (ts : Q) :
  (5 <= length raw_values)%nat -> is_Some (parse_sheet_data raw_values ts).
Proof.
  intros Hlen. unfold parse_sheet_data.
  rewrite bool_decide_eq_false_2 by (intros ->; simpl in Hlen; lia).
  destruct (Nat.ltb_spec (length raw_values) 5); [lia | simpl; eauto].
Qed.


End SheetFacts.

(** ** The cache gate *)

Section CacheFacts.
Import Sheet Cache Sizing Runs Sample.
Local Open Scope Q_scope.

Variable py_float : string -> option Q.
Variable cfg : config.

(** A call that does not fetch, or whose fetch fails or returns an empty
    array, returns the cached value and leaves the state as it is. *)
Lemma get_no_fetch force now run st :
  wants_fetch cfg force now st = false ->
  get_cached_data cfg force now run st = (data st, st).
Proof. intros H. unfold get_cached_data. now rewrite H. Qed.

Lemma get_fetch_failed force now run st :
  fetch_sheet_data cfg run = None ->
  get_cached_data cfg force now run st = (data st, st).
Proof.
  intros H. unfold get_cached_data. rewrite H.
  now destruct (wants_fetch cfg force now st).
Qed.

Lemma get_fetch_empty force now run st :
  fetch_sheet_data cfg run = Some [] ->
  get_cached_data cfg force now run st = (data st, st).
Proof.
  intros H. unfold get_cached_data. rewrite H.
  now destruct (wants_fetch cfg force now st).
Qed.

Lemma get_fetched force now run raw st :
  wants_fetch cfg force now st = true ->
  fetch_sheet_data cfg run = Some raw ->
  raw <> [] ->
  get_cached_data cfg force now run st
  = (data (store_fetched now raw st), store_fetched now raw st).
Proof.
  intros Hw Hf Hne. unfold get_cached_data. rewrite Hw, Hf.
  now rewrite bool_decide_eq_false_2.
Qed.

(** Every call either keeps the state or stores a fetched array. *)
Lemma get_cases force now run st :
  (get_cached_data cfg force now run st).2 = st \/
  exists raw, (get_cached_data cfg force now run st).2
              = store_fetched now raw st.
Proof.
  unfold get_cached_data.
  destruct (wants_fetch cfg force now st); [| now left].
  destruct (fetch_sheet_data cfg run) as [raw |]; [| now left].
  destruct (bool_decide (raw = [])); [now left | right; now exists raw].
Qed.

Lemma no_repeat_snoc (l : list string) (x : string) :
  no_repeat l -> last l <> Some x -> no_repeat (l ++ [x]).
Proof.
  induction l as [| a [| b l] IH]; simpl; intros Hl Hx.
  - exact I.
  - split; [congruence | exact I].
  - destruct Hl as [Hab Hl]. split; [exact Hab |]. apply IH; assumption.
Qed.

Lemma store_fetched_invariant now raw st :
  gate_invariant st -> gate_invariant (store_fetched now raw st).
Proof.
  intros [Hlast Hrep]. unfold store_fetched.
  destruct (parse_sheet_data raw (timestamp st)) as [snap |]; [| now split].
  case_bool_decide as Hnew; [| now split].
  unfold save_historical_snapshot. split; simpl.
  - now rewrite last_snoc.
  - rewrite fmap_app. apply no_repeat_snoc; [exact Hrep |].
    rewrite fmap_last. congruence.
Qed.

Lemma reachable_invariant st :
  reachable py_float cfg st -> gate_invariant st.
Proof.
  induction 1 as [| st force now run _ IH | st s now run _ IH].
  - split; reflexivity.
  - destruct (get_cases force now run st) as [-> | [raw ->]];
      [exact IH | now apply store_fetched_invariant].
  - unfold api_data.
    destruct (get_cached_data cfg false now run st) as [d st1] eqn:E.
    assert (Hst1 : gate_invariant st1).
    { replace st1 with (get_cached_data cfg false now run st).2
        by now rewrite E.
      destruct (get_cases false now run st) as [-> | [raw ->]];
        [exact IH | now apply store_fetched_invariant]. }
    destruct d; [| exact Hst1]. exact Hst1.
Qed.


End CacheFacts.

Section CacheWitnesses.
Import PyNum Sheet Cache Sizing Runs Sample.
Local Open Scope Q_scope.

Lemma warm_reachable : reachable decimal_literal cfg warm.
Proof. apply reach_get, reach_initial. Qed.


(** C7, as amended. With a snapshot cached, a failed fetch leaves the whole
    cache state (snapshot and fetch timestamp included) as it was and
    returns the stale snapshot; that is also what a call served from the
    cache returns, so the returned value does not tell the failure.  Only
    with nothing cached is the failure visible, as a none result. *)
Theorem failed_fetch_keeps_cache (c : config) (st : state) (snap : snapshot)
    (force : bool) (now : Q) (run : gog_run) :
  fetch_sheet_data c run = None ->
  (data st = Some snap ->
     get_cached_data c force now run st = (Some snap, st)
     /\ forall force' now' run',
          wants_fetch c force' now' st = false ->
          get_cached_data c force' now' run' st = (Some snap, st))
  /\ (data st = None -> get_cached_data c force now run st = (None, st)).
Proof.
  intros Hfail. split.
  - intros Hd. split.
    + now rewrite get_fetch_failed, Hd.
    + intros force' now' run' Hw. now rewrite get_no_fetch, Hd.
  - intros Hd. now rewrite get_fetch_failed, Hd.
Qed.

Lemma failed_fetch_keeps_cache_witness :
  exists snap,
    data warm = Some snap
    /\ get_cached_data cfg true 2000 failed warm = (Some snap, warm).
Proof.
  eexists. split; [reflexivity |].
  apply (proj1 (proj1 (failed_fetch_keeps_cache cfg warm _ true 2000 failed
                         eq_refl) eq_refl)).
Defined.

(** C7, as stated, fails: after a failed forced refresh the caller holds
    the very value a cache hit returns. *)
Lemma failure_not_reported : ~ Stated.stale_on_failure cfg.
Proof.
  intros H.
  destruct (data warm) as [snap |] eqn:E; [| discriminate E].
  specialize (H warm snap true 2000 failed E eq_refl eq_refl).
  rewrite (get_fetch_failed cfg true 2000 failed warm eq_refl) in H.
  destruct H as (_ & _ & _ & Hrep).
  apply (Hrep false 1001 failed).
  - left. reflexivity.
  - rewrite (get_fetch_failed cfg true 2000 failed warm eq_refl).
    now rewrite (get_no_fetch cfg false 1001 failed warm eq_refl).
Qed.

(** C10, as amended. A fetched array of one to four rows parses to no
    snapshot: the gate then clears the cached snapshot, sets the fetch
    timestamp to the current time, and returns none. *)
Theorem short_sheet_clears_cache (c : config) (st : state) (force : bool)
    (now : Q) (run : gog_run) (raw : list (list string)) :
  wants_fetch c force now st = true ->
  fetch_sheet_data c run = Some raw ->
  raw <> [] ->
  (length raw < 5)%nat ->
  parse_sheet_data raw (timestamp st) = None
  /\ get_cached_data c force now run st
     = (None, {| data := None; timestamp := now;
                 last_scan_time := last_scan_time st;
                 history := history st |}).
Proof.
  intros Hw Hf Hne Hlen.
  pose proof (short_sheet_no_snapshot raw (timestamp st) Hlen) as Hp.
  split; [exact Hp |].
  rewrite (get_fetched c force now run raw st Hw Hf Hne).
  unfold store_fetched. now rewrite Hp.
Qed.

Lemma short_sheet_clears_cache_witness :
  get_cached_data cfg true 2000 (ok short_sheet) warm
  = (None, {| data := None; timestamp := 2000;
              last_scan_time := last_scan_time warm;
              history := history warm |}).
Proof.
  apply (short_sheet_clears_cache cfg warm true 2000 (ok short_sheet)
           short_sheet eq_refl eq_refl).
  - discriminate.
  - simpl. lia.
Defined.

(** C10, as stated, fails on the empty array: it parses to no snapshot, yet
    the gate keeps the cached snapshot and returns it. *)
Lemma empty_sheet_keeps_cache : ~ Stated.unparsable_discards cfg.
Proof.
  intros H.
  specialize (H warm true 2000 (RunExit 0 (JsonValues None)) []
                eq_refl eq_refl eq_refl).
  rewrite (get_fetch_empty cfg true 2000 (RunExit 0 (JsonValues None)) warm
             eq_refl) in H.
  destruct H as (Hr & _). discriminate Hr.
Qed.

End CacheWitnesses.

(** ** Position sizing *)

Section SizingFacts.
Import PyNum Sheet Cache Sizing.
Local Open Scope Q_scope.

Variable py_float : string -> option Q.

Lemma float_field_insert (stock : gmap string string) (k k' v : string) :
  k' <> k ->
  float_field py_float (<[k' := v]> stock) k = float_field py_float stock k.
Proof.
  intros Hne. unfold float_field. now rewrite lookup_insert_ne.
Qed.

(** The annotation writes the two new keys and nothing else. *)
Lemma annotate_stock_shape rpt stock :
  exists sh co,
    annotate_stock py_float rpt stock
    = <["Cost" := co]> (<["Shares" := sh]> stock).
Proof.
  unfold annotate_stock, not_computable.
  repeat match goal with
         | |- context [match ?x with _ => _ end] => destruct x
         end; eauto.
Qed.




(** The body of a successful [/api/data] response is the annotation of the
    snapshot the cache gate returned. *)
Lemma api_data_body cfg s now run st body st' :
  api_data py_float cfg s now run st = (Http200 body, st') ->
  exists snap,
    (get_cached_data cfg false now run st).1 = Some snap
    /\ body = annotate py_float s snap
    /\ data st' = Some body.
Proof.
  unfold api_data.
  destruct (get_cached_data cfg false now run st) as [[snap |] st1];
    [| discriminate].
  intros [= <- <-]. exists snap. repeat split.
Qed.


End SizingFacts.

Section SizingWitnesses.
Import PyNum Sheet Cache Sizing Sample.
Local Open Scope Q_scope.

Example sheet_parses : parse_sheet_data sheet 0 = Some scan.
Proof. reflexivity. Qed.




End SizingWitnesses.

(** ** The JSON file store *)

Section StoreFacts.
Import Store.

Variable dumps : json -> option string.
Variable loads : string -> option json.

Lemma open_w_files path d d1 :
  open_w path d = Some d1 ->
  files d1 = <[path := ""]> (files d) /\ denied d1 = denied d.
Proof.
  unfold open_w. case_bool_decide; [discriminate |].
  intros [= <-]. now split.
Qed.

(** A save that reports success has put the whole serialised document
    under the target path. *)
Lemma save_writes_text d filepath doc d' :
  save_json_file dumps d filepath doc = (true, d') ->
  exists text, dumps doc = Some text /\ files d' !! filepath = Some text.
Proof.
  unfold save_json_file.
  destruct (open_w (filepath ++ ".lock") d) as [d1 |]; [| discriminate].
  destruct (open_w (filepath ++ ".tmp") d1) as [d2 |]; [| discriminate].
  destruct (dumps doc) as [text |]; [| discriminate].
  unfold rename, write. simpl. rewrite lookup_insert_eq.
  case_bool_decide; [discriminate |].
  intros [= <-]. exists text. split; [reflexivity |].
  simpl. apply lookup_insert_eq.
Qed.

(** C5. If [save_json_file] reports success for a document that the JSON
    library reads back from its own output, then [load_json_file] on the
    same path returns that document, whatever the default. *)
Theorem save_then_load (d d' : fs) (filepath : string) (doc default : json) :
  save_json_file dumps d filepath doc = (true, d') ->
  (forall text, dumps doc = Some text -> loads text = Some doc) ->
  load_json_file loads d' filepath default = doc.
Proof.
  intros Hsave Hcodec.
  destruct (save_writes_text d filepath doc d' Hsave) as (text & Htext & Hfile).
  unfold load_json_file. rewrite Hfile, (Hcodec text Htext). reflexivity.
Qed.

Lemma length_append (s1 s2 : string) :
  String.length (s1 ++ s2) = (String.length s1 + String.length s2)%nat.
Proof. induction s1 as [| c s1 IH]; simpl; [reflexivity | now rewrite IH]. Qed.

Lemma append_ne (s suffix : string) :
  suffix <> "" -> (s ++ suffix)%string <> s.
Proof.
  intros Hne Heq. apply (f_equal String.length) in Heq.
  rewrite length_append in Heq.
  destruct suffix; [congruence | simpl in Heq; lia].
Qed.

(** A save that reports failure has not touched the target: a reader sees
    the previous complete document, never a partial one. *)
Lemma failed_save_keeps_target d filepath doc d' :
  save_json_file dumps d filepath doc = (false, d') ->
  files d' !! filepath = files d !! filepath.
Proof.
  assert (Hl : (filepath ++ ".lock")%string <> filepath)
    by (apply append_ne; discriminate).
  assert (Ht : (filepath ++ ".tmp")%string <> filepath)
    by (apply append_ne; discriminate).
  unfold save_json_file.
  destruct (open_w (filepath ++ ".lock") d) as [d1 |] eqn:E1;
    [| now intros [= <-]].
  apply open_w_files in E1 as [F1 _].
  destruct (open_w (filepath ++ ".tmp") d1) as [d2 |] eqn:E2.
  2: { intros [= <-]. rewrite F1. now rewrite lookup_insert_ne. }
  apply open_w_files in E2 as [F2 _].
  destruct (dumps doc) as [text |].
  2: { intros [= <-]. rewrite F2, F1. now rewrite !lookup_insert_ne. }
  destruct (rename _ _ _); [discriminate |].
  intros [= <-]. unfold write. simpl. rewrite F2, F1.
  now rewrite !lookup_insert_ne.
Qed.

End StoreFacts.

Section StoreWitnesses.
Import Store Sample.

Lemma settings_doc_codec text :
  write_json settings_doc = Some text -> read_json text = Some settings_doc.
Proof. intros [= <-]. reflexivity. Qed.

Lemma save_then_load_witness :
  load_json_file read_json
    (save_json_file write_json empty_disk "data/settings.json" settings_doc).2
    "data/settings.json" JNull
  = settings_doc.
Proof.
  apply (save_then_load write_json read_json empty_disk _
           "data/settings.json" settings_doc JNull).
  - reflexivity.
  - exact settings_doc_codec.
Defined.

(** On a target that cannot be replaced the save reports failure and the
    old content stays. *)
Example save_denied :
  let r := save_json_file write_json locked_disk "data/settings.json"
             settings_doc in
  r.1 = false /\ files r.2 !! "data/settings.json" = Some "{}".
Proof. split; reflexivity. Qed.

End StoreWitnesses.

(** ** Rounding respects equality of rationals *)

Section RoundFacts.
Import PyNum.
Local Open Scope Q_scope.



End RoundFacts.

(** ** Closing a covered call *)

Section CloseFacts.
Import PyNum Calls Sample.
Local Open Scope Q_scope.







End CloseFacts.

(** ** Id allocation *)

Section IdFacts.
Import Runs Sample.
Local Open Scope Z_scope.
















End IdFacts.

(** ** Sums over a partition *)

Section SumFacts.
Local Open Scope Q_scope.











End SumFacts.

(** ** The covered-call summary *)

Section SummaryFacts.
Import PyStr Calls.
Local Open Scope Q_scope.











End SummaryFacts.

Section SummaryWitnesses.
Import Calls Sample.
Local Open Scope Q_scope.



End SummaryWitnesses.

(** ** The stock-position summary *)

Section PositionFacts.
Import PyNum Positions Runs Sample.
Local Open Scope Q_scope.

(** A record without the [stop_price] key has risk zero and is left out of
    the R-multiple list. *)
Lemma r_multiple_without_stop_key (p : position) :
  stop_price p = None -> r_multiple_of p = Some None.
Proof.
  intros H. unfold r_multiple_of. rewrite H.
  change (default (entry_price p) None) with (entry_price p).
  assert (E : Qltb 0 (Qabs (entry_price p - entry_price p)) = false).
  { apply Qltb_ge. rewrite (Qabs_wd _ 0) by ring. apply Qle_refl. }
  now rewrite E.
Qed.

(** A closed long position with a stop below the entry: close minus entry
    over entry minus stop. *)
Lemma r_multiple_long (p : position) (stop close : Q) :
  stop_price p = Some stop -> close_price p = Some close ->
  trade_type p = "long" -> stop < entry_price p ->
  exists r, r_multiple_of p = Some (Some r)
            /\ r == (close - entry_price p) / (entry_price p - stop).
Proof.
  intros Hs Hc Ht Hlt. unfold r_multiple_of. rewrite Hs, Hc, Ht.
  change (default (entry_price p) (Some stop)) with stop.
  assert (Habs : Qabs (entry_price p - stop) == entry_price p - stop)
    by (apply Qabs_pos; lra).
  assert (E : Qltb 0 (Qabs (entry_price p - stop)) = true)
    by (apply Qltb_lt; rewrite Habs; lra).
  rewrite E. cbn [mbind option_bind].
  rewrite bool_decide_eq_true_2 by reflexivity.
  eexists. split; [reflexivity |]. now rewrite Habs.
Qed.

(** C4, where the program departs from it. A long position of ten shares
    entered at 50 without a stop and closed at 60: the add handler stores
    the stop as 0, so the summary takes the whole entry price as the risk
    and the position enters the average with R = 10 / 50, instead of being
    left out with risk zero. *)
Theorem unset_stop_enters_average :
  let positions :=
    position_run [position_add; PosUpdate 1 sell_at_60 "2024-05-10"] [] in
  map stop_price positions = [Some 0]
  /\ map r_multiple_of positions = [Some (Some (10 / 50))]
  /\ exists s, _positions_summary positions = Some s
               /\ avg_r_multiple (overall s) == 1 # 5.
Proof.
  split; [reflexivity | split; [reflexivity |]].
  eexists. split; [reflexivity |]. reflexivity.
Qed.

End PositionFacts.

(** * Further properties of the program *)

(** ** Rows built by the sheet parser *)

Section RowFacts.
Import Sheet Sample.

Lemma make_stock_fold (row : list string) (jhs : list (nat * string))
    (m : gmap string string) (h : string) :
  is_Some (foldl (fun stock jh => <[jh.2 := cell row jh.1 ""]> stock) m jhs
           !! h)
  <-> is_Some (m !! h) \/ h ∈ jhs.*2.
Proof.
  revert m. induction jhs as [| [j k] jhs IH]; intros m; simpl.
  - rewrite elem_of_nil. tauto.
  - rewrite IH, elem_of_cons. simpl. rewrite lookup_insert_is_Some. split.
    + intros [[-> | [_ H]] | H]; auto.
    + intros [H | [-> | H]]; auto.
      destruct (decide (k = h)) as [-> | Hne]; auto.
Qed.

Lemma imap_pair_snd {A} (l : list A) (n : nat) :
  (imap (fun i x => (n + i, x)%nat) l).*2 = l.
Proof.
  revert n. induction l as [| x l IH]; intros n; simpl; [reflexivity |].
  f_equal. rewrite <- (IH (S n)) at 2. f_equal.
  apply imap_ext. intros i y _. simpl. f_equal. lia.
Qed.

(** The keys of a stock dict are exactly the headers. *)
Lemma make_stock_keys (hdrs row : list string) (h : string) :
  is_Some (make_stock hdrs row !! h) <-> h ∈ hdrs.
Proof.
  unfold make_stock. rewrite make_stock_fold, lookup_empty.
  change (imap pair hdrs) with (imap (fun i x => (0 + i, x)%nat) hdrs).
  rewrite imap_pair_snd. split; [| auto].
  intros [[x Hx] | H]; [discriminate | exact H].
Qed.

Lemma make_stock_fold_miss (row : list string) (jhs : list (nat * string))
    (m : gmap string string) (h : string) :
  h ∉ jhs.*2 ->
  foldl (fun stock jh => <[jh.2 := cell row jh.1 ""]> stock) m jhs !! h
  = m !! h.
Proof.
  revert m. induction jhs as [| [j k] jhs IH]; intros m Hh; simpl;
    [reflexivity |].
  simpl in Hh. apply not_elem_of_cons in Hh as [Hne Hh].
  rewrite IH by exact Hh. now rewrite lookup_insert_ne.
Qed.

Lemma make_stock_fold_hit (row : list string) (hdrs : list string)
    (n j : nat) (m : gmap string string) (h : string) :
  NoDup hdrs -> hdrs !! j = Some h ->
  foldl (fun stock jh => <[jh.2 := cell row jh.1 ""]> stock) m
        (imap (fun i x => (n + i, x)%nat) hdrs) !! h
  = Some (cell row (n + j) "").
Proof.
  revert n j m. induction hdrs as [| k hdrs IH]; intros n j m Hnd Hj;
    [discriminate |].
  apply NoDup_cons in Hnd as [Hk Hnd]. simpl.
  destruct j as [| j]; simpl in Hj.
  - injection Hj as ->.
    rewrite make_stock_fold_miss.
    + rewrite Nat.add_0_r. apply lookup_insert_eq.
    + rewrite (imap_ext _ (fun i x => (S n + i, x)%nat))
        by (intros; simpl; f_equal; lia).
      now rewrite imap_pair_snd.
  - rewrite (imap_ext _ (fun i x => (S n + i, x)%nat))
      by (intros; simpl; f_equal; lia).
    rewrite (IH (S n) j _ Hnd Hj). f_equal. f_equal. lia.
Qed.

(** X1. In a parsed snapshot every stock dict has exactly the headers as
    keys; and when no header occurs twice, the value under the header of
    column [j] is the cell of that column, or the empty string when the
    row is too short. *)
Theorem parsed_rows_follow_headers (raw_values : list (list string)) (ts : Q)
    (snap : snapshot) (stock : gmap string string) :
  parse_sheet_data raw_values ts = Some snap ->
  stock ∈ stocks snap ->
  (forall h, is_Some (stock !! h) <-> h ∈ headers snap)
  /\ (NoDup (headers snap) ->
      exists row, row ∈ drop 5 raw_values /\ (1 < length row)%nat /\
        forall j h, headers snap !! j = Some h ->
                    stock !! h = Some (default "" (row !! j))).
Proof.
  unfold parse_sheet_data.
  destruct (bool_decide (raw_values = []) || (length raw_values <? 5)%nat);
    [discriminate |].
  intros [= <-]. simpl. intros Hin.
  apply list_elem_of_fmap in Hin as (row & -> & Hrow).
  apply list_elem_of_filter in Hrow as [Hlen Hrow].
  split.
  - intros h. apply make_stock_keys.
  - intros Hnd. exists row. repeat split; [exact Hrow | exact Hlen |].
    intros j h Hj. unfold make_stock.
    change (imap pair (default [] (raw_values !! 4%nat)))
      with (imap (fun i x => (0 + i, x)%nat) (default [] (raw_values !! 4%nat))).
    now rewrite (make_stock_fold_hit row _ 0 j ∅ h Hnd Hj).
Qed.

Lemma parsed_rows_follow_headers_witness :
  (forall h, is_Some (aapl !! h) <-> h ∈ sheet_headers)
  /\ aapl !! "Shares" = Some "".
Proof.
  destruct (parsed_rows_follow_headers sheet 0 scan aapl eq_refl
              ltac:(apply list_elem_of_here)) as [Hkeys _].
  split; [exact Hkeys | reflexivity].
Defined.

End RowFacts.

(** ** More on the cache gate *)

Section GateFacts.
Import Sheet Cache Sizing Runs GateInvariants Sample.
Local Open Scope Q_scope.

Variable py_float : string -> option Q.
Variable cfg : config.

Lemma store_fetched_parsed now raw st :
  (5 <= length raw)%nat ->
  exists snap,
    parse_sheet_data raw (timestamp st) = Some snap
    /\ data (store_fetched now raw st) = Some snap
    /\ timestamp (store_fetched now raw st) = now
    /\ cache_time snap = timestamp st.
Proof.
  intros Hlen. destruct (parse_long_sheet raw (timestamp st) Hlen) as [snap Hp].
  exists snap. unfold store_fetched. rewrite Hp.
  assert (Hc : cache_time snap = timestamp st).
  { unfold parse_sheet_data in Hp.
    destruct (bool_decide (raw = []) || (length raw <? 5)%nat);
      [discriminate | now injection Hp as <-]. }
  case_bool_decide; simpl; auto.
Qed.

Lemma long_nonempty (raw : list (list string)) :
  (5 <= length raw)%nat -> raw <> [].
Proof. intros H ->. simpl in H. lia. Qed.

(** X2. After a call that fetched a sheet of at least five rows at time
    [t1], every unforced call at a time [t2] with
    [t2 - t1 <= CACHE_DURATION] returns the same snapshot and leaves the
    cache as it is, whatever the upstream would return at [t2]: the second
    call does not look at the fetch result. *)
Theorem second_call_served_from_cache (st : state) (force : bool) (t1 : Q)
    (run1 : gog_run) (raw : list (list string)) :
  wants_fetch cfg force t1 st = true ->
  fetch_sheet_data cfg run1 = Some raw ->
  (5 <= length raw)%nat ->
  forall t2 run2,
    t2 - t1 <= inject_Z (CACHE_DURATION cfg) ->
    let r1 := get_cached_data cfg force t1 run1 st in
    is_Some r1.1 /\ get_cached_data cfg false t2 run2 r1.2 = r1.
Proof.
  intros Hw Hf Hlen t2 run2 Ht r1. subst r1.
  rewrite (get_fetched cfg force t1 run1 raw st Hw Hf (long_nonempty raw Hlen)).
  destruct (store_fetched_parsed t1 raw st Hlen) as (snap & _ & Hd & Hts & _).
  simpl. split; [rewrite Hd; eauto |].
  apply get_no_fetch. unfold wants_fetch. rewrite Hd, Hts. simpl.
  now apply Qltb_ge.
Qed.

(** X3. The [cache_time] of a freshly fetched snapshot is the fetch time
    the cache held before this fetch (0 in a fresh process), not the time
    of the fetch that produced it; the cache's own timestamp is the
    current time. *)
Theorem cache_time_lags_one_fetch (st : state) (force : bool) (now : Q)
    (run : gog_run) (raw : list (list string)) :
  wants_fetch cfg force now st = true ->
  fetch_sheet_data cfg run = Some raw ->
  (5 <= length raw)%nat ->
  exists snap,
    get_cached_data cfg force now run st
    = (Some snap, (get_cached_data cfg force now run st).2)
    /\ cache_time snap = timestamp st
    /\ timestamp (get_cached_data cfg force now run st).2 = now.
Proof.
  intros Hw Hf Hlen.
  rewrite (get_fetched cfg force now run raw st Hw Hf (long_nonempty raw Hlen)).
  destruct (store_fetched_parsed now raw st Hlen) as (snap & _ & Hd & Hts & Hc).
  exists snap. simpl. rewrite Hd. auto.
Qed.

Lemma store_fetched_served now raw st :
  served_is_archived (store_fetched now raw st).
Proof.
  unfold served_is_archived, store_fetched.
  destruct (parse_sheet_data raw (timestamp st)) as [snap |];
    [| discriminate].
  case_bool_decide as Hnew; simpl; intros s [= <-]; [reflexivity |].
  destruct (decide (Some (scan_time snap) = last_scan_time st)) as [e | n];
    [now rewrite e | now destruct Hnew].
Qed.

Lemma get_serves_archived force now run st :
  served_is_archived st ->
  served_is_archived (get_cached_data cfg force now run st).2.
Proof.
  intros H. destruct (get_cases cfg force now run st) as [-> | [raw ->]];
    [exact H | apply store_fetched_served].
Qed.

Lemma get_returns_cached force now run st d st1 :
  get_cached_data cfg force now run st = (d, st1) -> d = data st1.
Proof. unfold get_cached_data. now intros [= <- <-]. Qed.

Lemma reachable_served st :
  reachable py_float cfg st -> served_is_archived st.
Proof.
  induction 1 as [| st force now run _ IH | st s now run _ IH].
  - intros snap Hd. discriminate Hd.
  - now apply get_serves_archived.
  - unfold api_data.
    pose proof (get_serves_archived false now run st IH) as H1.
    destruct (get_cached_data cfg false now run st) as [d st1] eqn:E.
    apply get_returns_cached in E. simpl in H1.
    destruct d as [snap |]; [| exact H1].
    intros body [= <-]. simpl. now apply H1.
Qed.

(** X4. In every cache state the routes can reach, the cached snapshot has
    been archived: the newest entry of the history carries its scan
    time.  (The entry is the snapshot as fetched; [/api/data] may have
    annotated the cached one since.) *)
Theorem served_snapshot_is_archived (st : state) (snap : snapshot) :
  reachable py_float cfg st ->
  data st = Some snap ->
  exists entry, last (history st) = Some entry
                /\ scan_time entry = scan_time snap.
Proof.
  intros Hreach Hd.
  destruct (reachable_invariant py_float cfg st Hreach) as [Hlast _].
  rewrite (reachable_served st Hreach snap Hd) in Hlast.
  destruct (last (history st)) as [entry |]; [| discriminate].
  exists entry. split; [reflexivity |]. simpl in Hlast. congruence.
Qed.


End GateFacts.

Section GateWitnesses.
Import PyNum Sheet Cache Sizing Runs Sample.
Local Open Scope Q_scope.

Lemma second_call_served_from_cache_witness :
  get_cached_data cfg false 1200 (ok later_sheet) warm
  = get_cached_data cfg false 1000 (ok sheet) initial.
Proof.
  apply (second_call_served_from_cache cfg initial false 1000 (ok sheet)
           sheet eq_refl eq_refl).
  - simpl. lia.
  - vm_compute. discriminate.
Defined.

Lemma cache_time_lags_one_fetch_witness :
  exists snap,
    get_cached_data cfg true 2000 (ok later_sheet) warm
    = (Some snap, (get_cached_data cfg true 2000 (ok later_sheet) warm).2)
    /\ cache_time snap = 1000.
Proof.
  destruct (cache_time_lags_one_fetch cfg warm true 2000 (ok later_sheet)
              later_sheet eq_refl eq_refl ltac:(simpl; lia))
    as (snap & Hget & Hc & _).
  exists snap. split; [exact Hget | exact Hc].
Defined.

Lemma served_snapshot_is_archived_witness :
  exists entry, last (history warm) = Some entry
                /\ scan_time entry = "2024-05-01 09:30".
Proof.
  exact (served_snapshot_is_archived decimal_literal cfg warm scan
           warm_reachable eq_refl).
Defined.

End GateWitnesses.

(** ** More on the annotation of [/api/data] *)

Section AnnotateFacts.
Import PyNum Sheet Cache Sizing Sample.
Local Open Scope Q_scope.

Variable py_float : string -> option Q.

Lemma overwrite_cells (stock : gmap string string) (sh co sh' co' : string) :
  <["Cost" := co']> (<["Shares" := sh']>
     (<["Cost" := co]> (<["Shares" := sh]> stock)))
  = <["Cost" := co']> (<["Shares" := sh']> stock).
Proof.
  apply map_eq. intros k.
  destruct (decide (k = "Cost")) as [-> | Hkc];
    [now rewrite !lookup_insert_eq |].
  rewrite !(lookup_insert_ne _ "Cost") by congruence.
  destruct (decide (k = "Shares")) as [-> | Hks];
    [now rewrite !lookup_insert_eq |].
  repeat (rewrite lookup_insert_ne by congruence). reflexivity.
Qed.

Lemma annotate_stock_twice rpt stock :
  annotate_stock py_float rpt (annotate_stock py_float rpt stock)
  = annotate_stock py_float rpt stock.
Proof.
  destruct (annotate_stock_shape py_float rpt stock) as (sh & co & Hshape).
  assert (Hp : float_field py_float (<["Cost" := co]> (<["Shares" := sh]> stock))
                 "Pivot" = float_field py_float stock "Pivot")
    by (rewrite !float_field_insert; congruence).
  assert (Hs : float_field py_float (<["Cost" := co]> (<["Shares" := sh]> stock))
                 "Stop" = float_field py_float stock "Stop")
    by (rewrite !float_field_insert; congruence).
  rewrite Hshape at 1. unfold annotate_stock, not_computable.
  rewrite Hp, Hs.
  destruct (float_field py_float stock "Pivot") as [pivot |];
    [| apply overwrite_cells].
  destruct (float_field py_float stock "Stop") as [stop |];
    [| apply overwrite_cells].
  destruct (Qltb 0 pivot && Qltb 0 stop && Qltb stop pivot);
    apply overwrite_cells.
Qed.

Lemma add_cost_header_has_cost hdrs : "Cost" ∈ add_cost_header hdrs.
Proof.
  unfold add_cost_header. case_bool_decide as Hin; [exact Hin |].
  destruct (list_find _ hdrs) as [[i h] |].
  - apply elem_of_app. right. apply list_elem_of_here.
  - apply elem_of_app. right. apply list_elem_of_here.
Qed.

Lemma add_cost_header_twice hdrs :
  add_cost_header (add_cost_header hdrs) = add_cost_header hdrs.
Proof.
  unfold add_cost_header at 1.
  now rewrite bool_decide_eq_true_2 by apply add_cost_header_has_cost.
Qed.

(** X6. The header update of [/api/data] puts ["Cost"] into the list
    exactly once more when it is missing, directly after the first
    ["Shares"] when there is one and at the end otherwise; the other
    headers keep their order; and a second update changes nothing. *)
Theorem cost_header_added_once (hdrs : list string) :
  "Cost" ∈ add_cost_header hdrs
  /\ add_cost_header (add_cost_header hdrs) = add_cost_header hdrs
  /\ ("Cost" ∈ hdrs -> add_cost_header hdrs = hdrs)
  /\ ("Cost" ∉ hdrs -> "Shares" ∉ hdrs ->
      add_cost_header hdrs = hdrs ++ ["Cost"])
  /\ ("Cost" ∉ hdrs -> forall pre post,
        hdrs = pre ++ "Shares" :: post -> "Shares" ∉ pre ->
        add_cost_header hdrs = pre ++ "Shares" :: "Cost" :: post).
Proof.
  split; [apply add_cost_header_has_cost |].
  split; [apply add_cost_header_twice |].
  split.
  { intros Hin. unfold add_cost_header. now rewrite bool_decide_eq_true_2. }
  split.
  - intros Hc Hs. unfold add_cost_header.
    rewrite bool_decide_eq_false_2 by exact Hc.
    destruct (list_find _ hdrs) as [[i h] |] eqn:E; [| reflexivity].
    apply list_find_Some in E as (Hi & -> & _).
    destruct Hs. eapply list_elem_of_lookup_2, Hi.
  - intros Hc pre post -> Hpre. unfold add_cost_header.
    rewrite bool_decide_eq_false_2 by exact Hc.
    assert (E : list_find (fun h => h = "Shares") (pre ++ "Shares" :: post)
                = Some (length pre, "Shares")).
    { apply list_find_Some. split; [| split; [reflexivity |]].
      - now rewrite lookup_app_r, Nat.sub_diag by lia.
      - intros j y Hj Hlt Hy. subst y.
        rewrite lookup_app_l in Hj by exact Hlt.
        apply Hpre. eapply list_elem_of_lookup_2, Hj. }
    rewrite E.
    rewrite take_app_ge, drop_app_ge by lia.
    replace (S (length pre) - length pre)%nat with 1%nat by lia.
    simpl. rewrite take_0, drop_0. now rewrite <- app_assoc.
Qed.

Lemma annotate_twice s snap :
  annotate py_float s (annotate py_float s snap) = annotate py_float s snap.
Proof.
  unfold annotate. simpl. f_equal.
  - apply add_cost_header_twice.
  - rewrite <- list_fmap_compose. apply list_fmap_ext.
    intros i stock _. apply annotate_stock_twice.
Qed.

(** X7. [/api/data] is idempotent on the cache: a second request answered
    from the cache re-annotates the snapshot the first request already
    annotated in place, and returns the same body and leaves the same
    cache. *)
Theorem api_data_twice (cfg : config) (s : settings) (now : Q)
    (run : gog_run) (st st1 : state) (body : snapshot) :
  api_data py_float cfg s now run st = (Http200 body, st1) ->
  forall now' run',
    wants_fetch cfg false now' st1 = false ->
    api_data py_float cfg s now' run' st1 = (Http200 body, st1).
Proof.
  intros H now' run' Hw.
  destruct (api_data_body py_float cfg s now run st body st1 H)
    as (snap & _ & Hbody & Hd).
  unfold api_data. rewrite (get_no_fetch cfg false now' run' st1 Hw), Hd.
  rewrite Hbody, annotate_twice. rewrite <- Hbody.
  f_equal. destruct st1. simpl in *. now rewrite Hd.
Qed.

(** X8. The annotation touches nothing but the two computed columns: the
    rows keep their number and order, every key other than ["Shares"] and
    ["Cost"] keeps its value, and scan time, market and account blocks are
    carried over. *)
Theorem annotate_keeps_sheet_columns (s : settings) (snap : snapshot) :
  scan_time (annotate py_float s snap) = scan_time snap
  /\ market (annotate py_float s snap) = market snap
  /\ account (annotate py_float s snap) = account snap
  /\ length (stocks (annotate py_float s snap)) = length (stocks snap)
  /\ forall i row,
       stocks snap !! i = Some row ->
       exists row',
         stocks (annotate py_float s snap) !! i = Some row'
         /\ forall k, k <> "Shares" -> k <> "Cost" -> row' !! k = row !! k.
Proof.
  repeat split.
  - simpl. apply length_fmap.
  - intros i row Hi. simpl. rewrite list_lookup_fmap, Hi. simpl.
    eexists. split; [reflexivity |]. intros k Hs Hc.
    destruct (annotate_stock_shape py_float (risk_per_trade_of s) row)
      as (sh & co & ->).
    now rewrite !lookup_insert_ne by congruence.
Qed.


End AnnotateFacts.

Section AnnotateWitnesses.
Import PyNum Sheet Cache Sizing Sample.
Local Open Scope Q_scope.

Lemma cost_header_added_once_witness :
  add_cost_header ["Ticker"; "Shares"; "Pivot"]
  = ["Ticker"; "Shares"; "Cost"; "Pivot"].
Proof.
  assert (Hc : "Cost" ∉ ["Ticker"; "Shares"; "Pivot"]).
  { intros H. repeat (apply elem_of_cons in H as [H | H]; [discriminate |]).
    inversion H. }
  assert (Hs : "Shares" ∉ ["Ticker"]).
  { intros H. repeat (apply elem_of_cons in H as [H | H]; [discriminate |]).
    inversion H. }
  exact (proj2 (proj2 (proj2 (proj2
           (cost_header_added_once ["Ticker"; "Shares"; "Pivot"])))) Hc
           ["Ticker"] ["Pivot"] eq_refl Hs).
Defined.

Lemma api_data_twice_witness :
  exists body st1,
    api_data decimal_literal cfg no_settings 1001 failed warm
    = (Http200 body, st1)
    /\ api_data decimal_literal cfg no_settings 1100 (ok later_sheet) st1
       = (Http200 body, st1).
Proof.
  eexists. eexists. split; [reflexivity |].
  apply (api_data_twice decimal_literal cfg no_settings 1001 failed warm _ _
           eq_refl).
  reflexivity.
Defined.

Lemma annotate_keeps_sheet_columns_witness :
  exists row',
    stocks (annotate decimal_literal no_settings scan) !! 0%nat = Some row'
    /\ row' !! "Ticker" = Some "AAPL".
Proof.
  destruct (proj2 (proj2 (proj2 (proj2
              (annotate_keeps_sheet_columns decimal_literal no_settings scan)))) 0%nat aapl
              eq_refl) as (row' & Hrow & Hkeep).
  exists row'. split; [exact Hrow |].
  rewrite Hkeep by discriminate. reflexivity.
Defined.


End AnnotateWitnesses.

(** ** More on the file store *)

Section StoreFrame.
Import Store Sample.

Variable dumps : json -> option string.

Lemma rename_files src dst d d' :
  rename src dst d = Some d' ->
  exists content,
    files d !! src = Some content
    /\ files d' = <[dst := content]> (delete src (files d)).
Proof.
  unfold rename. destruct (files d !! src) as [content |]; [| discriminate].
  case_bool_decide; [discriminate |].
  intros [= <-]. eauto.
Qed.

(** X10. A save touches at most three paths: the target, its [.tmp] and
    its [.lock] sibling; every other file keeps its content.  A save that
    reports failure leaves the target as it was, and one that reports
    success leaves no [.tmp] file behind (the [.lock] file stays). *)
Theorem save_touches_three_paths (d : fs) (filepath : string) (doc : json) :
  let r := save_json_file dumps d filepath doc in
  (forall q, q <> filepath -> q <> (filepath ++ ".tmp")%string ->
             q <> (filepath ++ ".lock")%string ->
             files r.2 !! q = files d !! q)
  /\ (r.1 = false -> files r.2 !! filepath = files d !! filepath)
  /\ (r.1 = true ->
      files r.2 !! (filepath ++ ".tmp")%string = None
      /\ files r.2 !! (filepath ++ ".lock")%string = Some "").
Proof.
  intros r.
  assert (Hl : (filepath ++ ".lock")%string <> filepath)
    by (apply append_ne; discriminate).
  assert (Ht : (filepath ++ ".tmp")%string <> filepath)
    by (apply append_ne; discriminate).
  assert (Htl : (filepath ++ ".tmp")%string <> (filepath ++ ".lock")%string).
  { intros E. clear -E. induction filepath as [| c f IH]; simpl in E;
      [discriminate | injection E as E; auto]. }
  split; [| split].
  - intros q Hq Hqt Hql. subst r. unfold save_json_file.
    destruct (open_w (filepath ++ ".lock") d) as [d1 |] eqn:E1;
      [| reflexivity].
    apply open_w_files in E1 as [F1 _].
    destruct (open_w (filepath ++ ".tmp") d1) as [d2 |] eqn:E2; simpl.
    2: { rewrite F1. now rewrite lookup_insert_ne. }
    apply open_w_files in E2 as [F2 _].
    destruct (dumps doc) as [text |]; simpl.
    2: { rewrite F2, F1. now rewrite !lookup_insert_ne. }
    destruct (rename _ _ _) as [d4 |] eqn:E4; simpl.
    + apply rename_files in E4 as (content & _ & ->). simpl.
      rewrite lookup_insert_ne, lookup_delete_ne, lookup_insert_ne by congruence.
      rewrite F2, F1. now rewrite !lookup_insert_ne.
    + rewrite lookup_insert_ne by congruence. rewrite F2, F1.
      now rewrite !lookup_insert_ne.
  - intros Hfail. apply (failed_save_keeps_target dumps d filepath doc).
    rewrite <- Hfail. apply surjective_pairing.
  - subst r. unfold save_json_file.
    destruct (open_w (filepath ++ ".lock") d) as [d1 |] eqn:E1;
      [| discriminate].
    apply open_w_files in E1 as [F1 _].
    destruct (open_w (filepath ++ ".tmp") d1) as [d2 |] eqn:E2;
      [| discriminate].
    apply open_w_files in E2 as [F2 _].
    destruct (dumps doc) as [text |]; [| discriminate].
    destruct (rename _ _ _) as [d4 |] eqn:E4; [| discriminate].
    intros _. simpl. apply rename_files in E4 as (content & _ & ->). simpl.
    split.
    + rewrite lookup_insert_ne by congruence. apply lookup_delete_eq.
    + rewrite lookup_insert_ne, lookup_delete_ne, lookup_insert_ne by congruence.
      rewrite F2, lookup_insert_ne, F1 by congruence. apply lookup_insert_eq.
Qed.

End StoreFrame.

Section StoreFrameWitness.
Import Store Sample.

Lemma save_touches_three_paths_witness :
  let r := save_json_file write_json locked_disk "data/settings.json"
             settings_doc in
  files r.2 !! "data/settings.json" = Some "{}".
Proof.
  intros r.
  exact (eq_trans
           (proj1 (proj2 (save_touches_three_paths write_json locked_disk
                            "data/settings.json" settings_doc)) eq_refl)
           eq_refl).
Defined.

End StoreFrameWitness.

(** ** Reading the checks of a handler *)





(** ** Covered-call trades built through the handlers *)

Section TradeStoreFacts.
Import PyNum PyStr Calls Runs Stored Sample.
Local Open Scope Q_scope.




Lemma close_trade_keeps data today t t' :
  close_trade data today t = Some t' ->
  id t' = id t /\ ticker t' = ticker t /\ contracts t' = contracts t
  /\ premium_per_contract t' = premium_per_contract t
  /\ strike t' = strike t /\ premium_total t' = premium_total t
  /\ sell_date t' = sell_date t /\ expiry t' = expiry t
  /\ stock_price_at_sell t' = stock_price_at_sell t
  /\ created_at t' = created_at t
  /\ exists q, pnl t' = Some (Some q).
Proof.
  unfold close_trade. destruct (premium_total t) as [prem |]; [| discriminate].
  cbn [mbind option_bind].
  destruct (if bool_decide _ then _ else _) as [v c].
  intros [= <-]. simpl. repeat split. eauto.
Qed.









(** X13. Closing leaves the rest of the store alone: with no trade of the
    given id the list is saved unchanged; otherwise the list keeps its
    length and order, only trades with that id can differ, and the closed
    trade keeps its id, ticker, dates of sale and expiry, strike,
    contracts, premiums and price at sale. *)
Theorem close_changes_one_trade (i : Z) (data : close_request)
    (today : string) (trades : list trade) :
  ((forall u, u ∈ trades -> id u <> Some i) ->
   api_calls_close i data today trades = Some trades)
  /\ forall trades',
       api_calls_close i data today trades = Some trades' ->
       Forall2 (fun t t' =>
                  t' = t
                  \/ id t = Some i
                     /\ id t' = id t /\ ticker t' = ticker t
                     /\ sell_date t' = sell_date t /\ expiry t' = expiry t
                     /\ strike t' = strike t /\ contracts t' = contracts t
                     /\ premium_per_contract t' = premium_per_contract t
                     /\ premium_total t' = premium_total t
                     /\ stock_price_at_sell t' = stock_price_at_sell t)
               trades trades'.
Proof.
  split.
  - induction trades as [| t rest IH]; intros Hno; simpl; [reflexivity |].
    rewrite bool_decide_eq_false_2 by (apply Hno; left).
    rewrite IH by (intros u Hu; apply Hno; now right). reflexivity.
  - induction trades as [| t rest IH]; simpl; intros trades'.
    + intros [= <-]. constructor.
    + case_bool_decide as Hid.
      * destruct (close_trade data today t) as [t' |] eqn:E; [| discriminate].
        intros [= <-]. constructor.
        -- right. destruct (close_trade_keeps _ _ _ _ E)
             as (H1 & H2 & H3 & H4 & H5 & H6 & H7 & H8 & H9 & _).
           repeat split; assumption.
        -- clear. induction rest; constructor; auto.
      * destruct (api_calls_close i data today rest) as [rest' |];
          [| discriminate].
        intros [= <-]. constructor; [now left | now apply IH].
Qed.

End TradeStoreFacts.

Section TradeStoreWitnesses.
Import Calls Runs Sample.

Lemma close_changes_one_trade_witness :
  api_calls_close 7 called_away_request "2024-05-17" book = Some book.
Proof.
  apply (proj1 (close_changes_one_trade 7 called_away_request "2024-05-17"
                  book)).
  intros u Hu. vm_compute in Hu.
  repeat (apply elem_of_cons in Hu as [-> | Hu]; [discriminate |]).
  inversion Hu.
Defined.

End TradeStoreWitnesses.

(** ** Deleting by id *)

Section DeleteFacts.
Import Runs Sample.

Lemma filter_all {A} (P : A -> Prop) `{forall x, Decision (P x)}
    (l : list A) :
  (forall x, x ∈ l -> P x) -> filter P l = l.
Proof.
  induction l as [| x l IH]; intros Hall; [reflexivity |].
  rewrite filter_cons, decide_True by (apply Hall; left).
  f_equal. apply IH. intros y Hy. apply Hall. now right.
Qed.

(** X14. Deleting by id, in either store, removes every entity with that
    id and nothing else: the others stay, in their order; a second delete
    of the same id, or a delete of an id that is not there, changes
    nothing. *)
Theorem delete_removes_exactly_the_id (i : Z) :
  (forall trades : list Calls.trade,
      (forall t, t ∈ Calls.api_calls_delete i trades
                 <-> t ∈ trades /\ Calls.id t <> Some i)
      /\ Calls.api_calls_delete i trades `sublist_of` trades
      /\ Calls.api_calls_delete i (Calls.api_calls_delete i trades)
         = Calls.api_calls_delete i trades
      /\ ((forall t, t ∈ trades -> Calls.id t <> Some i) ->
          Calls.api_calls_delete i trades = trades))
  /\ (forall positions : list Positions.position,
      (forall p, p ∈ Positions.api_positions_delete i positions
                 <-> p ∈ positions /\ Positions.id p <> Some i)
      /\ Positions.api_positions_delete i positions `sublist_of` positions
      /\ Positions.api_positions_delete i
           (Positions.api_positions_delete i positions)
         = Positions.api_positions_delete i positions
      /\ ((forall p, p ∈ positions -> Positions.id p <> Some i) ->
          Positions.api_positions_delete i positions = positions)).
Proof.
  split.
  - intros trades. unfold Calls.api_calls_delete.
    split; [| split; [| split]].
    + intros t. rewrite list_elem_of_filter. tauto.
    + apply sublist_filter.
    + now apply list_filter_filter_l.
    + apply filter_all.
  - intros positions. unfold Positions.api_positions_delete.
    split; [| split; [| split]].
    + intros p. rewrite list_elem_of_filter. tauto.
    + apply sublist_filter.
    + now apply list_filter_filter_l.
    + apply filter_all.
Qed.

Lemma delete_removes_exactly_the_id_witness :
  Calls.api_calls_delete 9 book = book.
Proof.
  apply (proj1 (delete_removes_exactly_the_id 9) book).
  intros t Ht. vm_compute in Ht.
  repeat (apply elem_of_cons in Ht as [-> | Ht]; [discriminate |]).
  inversion Ht.
Defined.

End DeleteFacts.

(** ** More on the covered-call summary *)

Section SummaryShape.
Import PyStr Calls Sample.
Local Open Scope Q_scope.






End SummaryShape.

(** ** Stock positions built through the handlers *)

Section PositionStoreFacts.
Import PyNum PyStr Positions Runs Stored Sample.
Local Open Scope Q_scope.












End PositionStoreFacts.

Section PositionStoreWitnesses.
Import Positions Runs Sample.
Local Open Scope Q_scope.


End PositionStoreWitnesses.

(** ** Settings and the shared defaults *)

Section SettingsFacts.
Import Settings.
Local Open Scope Q_scope.

Lemma assign_keeps {A} k (conv : A -> Q) a d d' k' :
  assign k conv a d = Some d' -> k' <> k -> d' !! k' = d !! k'.
Proof.
  destruct a; simpl; intros [= <-] Hne; [reflexivity |].
  now rewrite lookup_insert_ne.
Qed.

Lemma assign_given {A} k (conv : A -> Q) v d :
  assign k conv (Given v) d = Some (<[k := conv v]> d).
Proof. reflexivity. Qed.

Lemma assign_dom {A} k (conv : A -> Q) a d d' k' :
  assign k conv a d = Some d' -> is_Some (d !! k') -> is_Some (d' !! k').
Proof.
  destruct a; simpl; intros [= <-] H; [exact H |].
  apply lookup_insert_is_Some. destruct (decide (k = k')); auto.
Qed.

(** X19. With no readable settings file, [update_settings] writes into the
    shared defaults dict: when the save fails the request is answered with
    an error and no file is written, yet [get_settings] serves the new
    [account_equity] from then on, while the risk budget of [/api/data]
    stays what it was.  With a readable file a failed update changes
    nothing. *)
Theorem failed_update_alters_defaults (data : update_request) (p : process) :
  (settings_file p = None ->
   let r := update_settings data false p in
   r.1 = None
   /\ settings_file r.2 = None
   /\ risk_per_trade r.2 = risk_per_trade p
   /\ forall v, upd_account_equity data = Given v ->
                get_settings r.2 !! "account_equity" = Some v)
  /\ (is_Some (settings_file p) -> update_settings data false p = (None, p)).
Proof.
  split.
  - intros Hfile r. subst r. unfold update_settings, with_dict.
    rewrite Hfile. simpl.
    assert (Hget : forall d, get_settings
                     {| DEFAULT_SETTINGS := d; settings_file := None |} = d)
      by reflexivity.
    assert (Hrisk : forall d, risk_per_trade
                      {| DEFAULT_SETTINGS := d; settings_file := None |}
                    = risk_per_trade p)
      by (intros d; unfold risk_per_trade; now rewrite Hfile).
    destruct (assign "account_equity" id (upd_account_equity data) _)
      as [d1 |] eqn:E1; simpl.
    2: { split; [reflexivity | split; [reflexivity | split; [apply Hrisk |]]].
         intros v Hv. rewrite Hv in E1. discriminate. }
    assert (H1 : forall v, upd_account_equity data = Given v ->
                           d1 !! "account_equity" = Some v).
    { intros v Hv. rewrite Hv in E1. injection E1 as <-.
      apply lookup_insert_eq. }
    destruct (assign "risk_pct" id (upd_risk_pct data) d1) as [d2 |] eqn:E2;
      simpl.
    2: { split; [reflexivity | split; [reflexivity | split; [apply Hrisk |]]].
         intros v Hv. rewrite Hget. now apply H1. }
    destruct (assign "max_positions" inject_Z (upd_max_positions data) d2)
      as [d3 |] eqn:E3; simpl;
      (split; [reflexivity | split; [reflexivity | split; [apply Hrisk |]]]);
      intros v Hv; rewrite Hget.
    + rewrite (assign_keeps _ _ _ _ _ _ E3) by discriminate.
      rewrite (assign_keeps _ _ _ _ _ _ E2) by discriminate. now apply H1.
    + rewrite (assign_keeps _ _ _ _ _ _ E2) by discriminate. now apply H1.
  - intros [d Hfile]. unfold update_settings, with_dict. rewrite Hfile. simpl.
    destruct (assign "account_equity" id _ d) as [d1 |]; [| reflexivity].
    destruct (assign "risk_pct" id _ d1) as [d2 |]; [| reflexivity].
    destruct (assign "max_positions" inject_Z _ d2); reflexivity.
Qed.

Lemma reachable_defaults_complete p :
  reachable p ->
  is_Some (DEFAULT_SETTINGS p !! "account_equity")
  /\ is_Some (DEFAULT_SETTINGS p !! "risk_pct")
  /\ is_Some (DEFAULT_SETTINGS p !! "max_positions").
Proof.
  induction 1 as [| data saved p _ (Ha & Hr & Hm)].
  - repeat split; eexists; reflexivity.
  - assert (Hstep : forall d,
               (forall k, is_Some (DEFAULT_SETTINGS p !! k) -> is_Some (d !! k))
               \/ is_Some (settings_file p) ->
               is_Some (DEFAULT_SETTINGS (with_dict p d) !! "account_equity")
               /\ is_Some (DEFAULT_SETTINGS (with_dict p d) !! "risk_pct")
               /\ is_Some (DEFAULT_SETTINGS (with_dict p d) !! "max_positions")).
    { intros d Hd. unfold with_dict.
      destruct (settings_file p) as [f |]; [now repeat split |].
      destruct Hd as [Hd | [f Hf]]; [| discriminate].
      simpl. repeat split; now apply Hd. }
    unfold update_settings.
    destruct (settings_file p) as [f |] eqn:Hfile.
    + simpl. unfold with_dict. rewrite Hfile.
      destruct (assign "account_equity" id _ f) as [d1 |]; [| now repeat split].
      destruct (assign "risk_pct" id _ d1) as [d2 |]; [| now repeat split].
      destruct (assign "max_positions" inject_Z _ d2); [| now repeat split].
      destruct saved; now repeat split.
    + simpl.
      destruct (assign "account_equity" id _ _) as [d1 |] eqn:E1; simpl.
      2: { apply Hstep. left. auto. }
      destruct (assign "risk_pct" id _ d1) as [d2 |] eqn:E2; simpl.
      2: { apply Hstep. left. intros k Hk. eapply assign_dom; eauto. }
      destruct (assign "max_positions" inject_Z _ d2) as [d3 |] eqn:E3; simpl.
      2: { apply Hstep. left. intros k Hk.
           eapply assign_dom; [exact E2 |]. eapply assign_dom; eauto. }
      assert (H3 : forall k, is_Some (DEFAULT_SETTINGS p !! k) ->
                             is_Some (d3 !! k)).
      { intros k Hk. eapply assign_dom; [exact E3 |].
        eapply assign_dom; [exact E2 |]. eapply assign_dom; eauto. }
      destruct saved; simpl.
      * unfold with_dict. rewrite Hfile. simpl. repeat split; now apply H3.
      * apply Hstep. left. exact H3.
Qed.

(** X20. After any sequence of settings updates, [get_settings] returns a
    dict with the keys [account_equity], [risk_pct] and [max_positions];
    a key the file holds is served with the file's value. *)
Theorem get_settings_is_complete (p : process) :
  reachable p ->
  is_Some (get_settings p !! "account_equity")
  /\ is_Some (get_settings p !! "risk_pct")
  /\ is_Some (get_settings p !! "max_positions")
  /\ forall loaded k v,
       settings_file p = Some loaded -> loaded !! k = Some v ->
       get_settings p !! k = Some v.
Proof.
  intros Hreach.
  destruct (reachable_defaults_complete p Hreach) as (Ha & Hr & Hm).
  unfold get_settings. destruct (settings_file p) as [loaded |].
  - repeat split; try (apply lookup_union_is_Some; now right).
    intros l k v [= <-] Hk. now apply lookup_union_Some_l.
  - repeat split; try assumption. intros l k v Hl. discriminate Hl.
Qed.

(** X21. An update that is saved is what [get_settings] serves next: each
    value sent is returned under its key, the response body is the dict
    written to the file, and the risk budget of [/api/data] follows the
    new [account_equity] and [risk_pct]. *)
Theorem saved_update_is_served (data : update_request) (p : process)
    (body : gmap string Q) (p' : process) :
  update_settings data true p = (Some body, p') ->
  settings_file p' = Some body
  /\ (forall v, upd_account_equity data = Given v ->
                get_settings p' !! "account_equity" = Some v)
  /\ (forall v, upd_risk_pct data = Given v ->
                get_settings p' !! "risk_pct" = Some v)
  /\ (forall n, upd_max_positions data = Given n ->
                get_settings p' !! "max_positions" = Some (inject_Z n))
  /\ (forall e r, upd_account_equity data = Given e ->
                  upd_risk_pct data = Given r ->
                  risk_per_trade p' = e * r).
Proof.
  unfold update_settings.
  destruct (assign "account_equity" id _ _) as [d1 |] eqn:E1;
    [| discriminate].
  destruct (assign "risk_pct" id _ d1) as [d2 |] eqn:E2; [| discriminate].
  destruct (assign "max_positions" inject_Z _ d2) as [d3 |] eqn:E3;
    [| discriminate].
  intros [= <- <-]. simpl.
  assert (Hget : forall k v, d3 !! k = Some v ->
            get_settings {| DEFAULT_SETTINGS := DEFAULT_SETTINGS (with_dict p d3);
                            settings_file := Some d3 |} !! k = Some v).
  { intros k v Hk. unfold get_settings. simpl. now apply lookup_union_Some_l. }
  assert (Ha : forall v, upd_account_equity data = Given v ->
                         d3 !! "account_equity" = Some v).
  { intros v Hv. rewrite Hv in E1. injection E1 as <-.
    rewrite (assign_keeps _ _ _ _ _ _ E3) by discriminate.
    rewrite (assign_keeps _ _ _ _ _ _ E2) by discriminate.
    apply lookup_insert_eq. }
  assert (Hr : forall v, upd_risk_pct data = Given v ->
                         d3 !! "risk_pct" = Some v).
  { intros v Hv. rewrite Hv in E2. injection E2 as <-.
    rewrite (assign_keeps _ _ _ _ _ _ E3) by discriminate.
    apply lookup_insert_eq. }
  split; [reflexivity |]. split; [auto |]. split; [auto |]. split.
  - intros n Hn. apply Hget. rewrite Hn in E3. injection E3 as <-.
    apply lookup_insert_eq.
  - intros e r He Hr'. unfold risk_per_trade. simpl.
    now rewrite (Ha e He), (Hr r Hr').
Qed.

End SettingsFacts.

Section SettingsWitnesses.
Import Settings Sample2.
Local Open Scope Q_scope.

Lemma failed_update_alters_defaults_witness :
  get_settings (update_settings bigger_account false fresh).2
    !! "account_equity" = Some 250000
  /\ risk_per_trade (update_settings bigger_account false fresh).2
     = risk_per_trade fresh.
Proof.
  destruct (proj1 (failed_update_alters_defaults bigger_account fresh) eq_refl)
    as (_ & _ & Hrisk & Hget).
  split; [exact (Hget 250000 eq_refl) | exact Hrisk].
Defined.

Lemma get_settings_is_complete_witness :
  is_Some (get_settings (update_settings bigger_account true fresh).2
             !! "max_positions").
Proof.
  apply (get_settings_is_complete _
           (reach_update bigger_account true fresh reach_fresh)).
Defined.

Lemma saved_update_is_served_witness :
  risk_per_trade (update_settings full_update true fresh).2
  = 50000 * (2 # 100).
Proof.
  destruct (update_settings full_update true fresh) as [[body |] p'] eqn:E;
    [| vm_compute in E; discriminate E].
  exact (proj2 (proj2 (proj2 (proj2
           (saved_update_is_served full_update fresh body p' E))))
           50000 (2 # 100) eq_refl eq_refl).
Defined.

End SettingsWitnesses.

(** ** Price alerts *)

Section AlertFacts.
Import PyNum PyStr Alerts.
Local Open Scope Q_scope.


(** X23. [delete_alert] answers 404 and changes nothing when the index is
    negative or not below the number of alerts.  Otherwise, when the save
    succeeds, it returns the alert at the index and stores the list
    without it: one entry shorter, the entries before the index in place
    and the later ones moved down by one. *)
Theorem delete_alert_by_index (index : Z) (saved : bool)
    (alerts : list alert) :
  let r := delete_alert index saved alerts in
  ((index < 0 \/ Z.of_nat (length alerts) <= index)%Z ->
   r = (Invalid404, alerts))
  /\ ((0 <= index < Z.of_nat (length alerts))%Z ->
      exists deleted,
        alerts !! Z.to_nat index = Some deleted
        /\ (saved = false -> r = (Failed500, alerts))
        /\ (saved = true ->
            r.1 = Deleted200 deleted
            /\ S (length r.2) = length alerts
            /\ (forall j, (j < Z.to_nat index)%nat -> r.2 !! j = alerts !! j)
            /\ (forall j, (Z.to_nat index <= j)%nat ->
                          r.2 !! j = alerts !! S j))).
Proof.
  intros r. subst r. unfold delete_alert. split.
  - intros Hout.
    destruct ((index <? 0)%Z || (Z.of_nat (length alerts) <=? index)%Z) eqn:E;
      [reflexivity |].
    apply orb_false_elim in E as [E1 E2].
    apply Z.ltb_ge in E1. apply Z.leb_gt in E2. lia.
  - intros [Hlo Hhi].
    destruct ((index <? 0)%Z || (Z.of_nat (length alerts) <=? index)%Z) eqn:E.
    { apply orb_prop in E as [E | E];
        [apply Z.ltb_lt in E | apply Z.leb_le in E]; lia. }
    assert (Hi : (Z.to_nat index < length alerts)%nat) by lia.
    destruct (lookup_lt_is_Some_2 alerts (Z.to_nat index) Hi) as [deleted Hd].
    rewrite Hd. exists deleted. split; [reflexivity |]. split.
    + now intros ->.
    + intros ->. simpl. split; [reflexivity |]. split; [| split].
      * rewrite length_delete by eauto. lia.
      * intros j Hj. now apply list_lookup_delete_lt.
      * intros j Hj. now apply list_lookup_delete_ge.
Qed.

End AlertFacts.

Section AlertWitnesses.
Import Alerts Sample2.
Local Open Scope Q_scope.


Lemma delete_alert_by_index_witness :
  (delete_alert 1 true three_alerts).2 !! 1%nat = three_alerts !! 2%nat
  /\ delete_alert 3 true three_alerts = (Invalid404, three_alerts).
Proof.
  split.
  - destruct (proj2 (delete_alert_by_index 1 true three_alerts)
                ltac:(simpl; lia)) as (deleted & _ & _ & Hsaved).
    destruct (Hsaved eq_refl) as (_ & _ & _ & Hshift).
    apply (Hshift 1%nat). simpl. lia.
  - apply (proj1 (delete_alert_by_index 3 true three_alerts)).
    right. simpl. lia.
Defined.

End AlertWitnesses.

(** ** The ticker check *)

Section TickerFacts.
Import PyStr TickerChars.

Lemma upper_char_alnum (c : ascii) :
  let u := upper_char c in
  is_alnum_char u = true \/ u = "."%char \/ u = "-"%char ->
  ticker_char u = true.
Proof.
  destruct c as [[] [] [] [] [] [] [] []]; vm_compute;
    intros [H | [H | H]]; congruence.
Qed.

Lemma chars_of_filter (P : ascii -> Prop) `{forall c, Decision (P c)}
    (s : string) :
  list_ascii_of_string
    (string_of_list_ascii (filter P (list_ascii_of_string s)))
  = filter P (list_ascii_of_string s).
Proof. apply list_ascii_of_string_of_list_ascii. Qed.

Lemma isalnum_chars (s : string) :
  isalnum s = true -> forallb is_alnum_char (list_ascii_of_string s) = true.
Proof.
  unfold isalnum. destruct (list_ascii_of_string s); [discriminate | auto].
Qed.

(** X24. On ASCII text, a ticker that passes the check shared by the three
    POST handlers (after [strip] and [upper]) has 1 to 10 characters, each
    of them a digit, an upper-case letter, a dot or a hyphen.  (Strings
    are ASCII here; letters and digits outside ASCII, which Python's
    [isalnum] accepts as well, are not modelled.) *)
Theorem accepted_ticker_characters (raw : string) :
  let ticker := upper (strip raw) in
  ticker_ok ticker = true ->
  (1 <= String.length ticker <= 10)%nat
  /\ forallb ticker_char (list_ascii_of_string ticker) = true.
Proof.
  intros ticker Hok. unfold ticker_ok in Hok.
  apply andb_prop in Hok as [Hok Halnum]. apply andb_prop in Hok as [Hne Hlen].
  apply negb_true_iff, bool_decide_eq_false in Hne.
  apply Nat.leb_le in Hlen. split.
  { split; [| exact Hlen]. destruct ticker; [congruence | simpl; lia]. }
  apply isalnum_chars in Halnum. unfold remove_char in Halnum.
  rewrite !chars_of_filter in Halnum.
  rewrite forallb_forall in Halnum. apply forallb_forall. intros c Hc.
  assert (Hup : exists c', c = upper_char c').
  { subst ticker. unfold upper in Hc.
    rewrite list_ascii_of_string_of_list_ascii in Hc.
    apply in_map_iff in Hc as (c' & <- & _). eauto. }
  destruct Hup as [c' ->]. apply upper_char_alnum.
  destruct (decide (upper_char c' = "."%char)) as [-> | Hdot]; [auto |].
  destruct (decide (upper_char c' = "-"%char)) as [-> | Hhyp]; [auto |].
  left. apply Halnum. apply list_elem_of_In.
  apply list_elem_of_filter. split; [exact Hhyp |].
  apply list_elem_of_filter. split; [exact Hdot |].
  now apply list_elem_of_In.
Qed.

Lemma accepted_ticker_characters_witness :
  forallb ticker_char (list_ascii_of_string (upper (strip " brk.b "))) = true.
Proof.
  apply (accepted_ticker_characters " brk.b " eq_refl).
Defined.

End TickerFacts.

(** ** Earnings dates *)

Section EarningsFacts.
Import PyStr Earnings.

(** X25. [set_earnings] stores the date under the upper-cased ticker and
    touches no other entry; a request without a ticker or a date, or one
    whose save fails, changes nothing.  Two requests whose tickers differ
    only in letter case write the same entry, and the later date stays. *)
Theorem set_earnings_by_upper_ticker (data : set_request) (saved : bool)
    (earnings : gmap string string) :
  let r := set_earnings data saved earnings in
  let ticker := upper (default "" (set_ticker data)) in
  (forall tk date, r.1 = Status200 tk date ->
     tk = ticker /\ date = default "" (set_date data)
     /\ tk <> "" /\ date <> ""
     /\ r.2 !! tk = Some date
     /\ forall k, k <> tk -> r.2 !! k = earnings !! k)
  /\ ((forall tk date, r.1 <> Status200 tk date) -> r.2 = earnings)
  /\ forall data' tk' date',
       upper (default "" (set_ticker data')) = ticker ->
       (set_earnings data' true r.2).1 = Status200 tk' date' ->
       (set_earnings data' true r.2).2 !! ticker = Some date'.
Proof.
  intros r ticker. subst r. unfold set_earnings. fold ticker.
  split; [| split].
  - destruct (bool_decide (ticker = "") || bool_decide (_ = "")) eqn:E;
      [intros tk date H; discriminate H |].
    apply orb_false_elim in E as [E1 E2].
    apply bool_decide_eq_false in E1, E2.
    destruct saved; intros tk date H; [| discriminate H].
    injection H as <- <-. simpl. repeat split; try assumption.
    + apply lookup_insert_eq.
    + intros k Hk. now apply lookup_insert_ne.
  - destruct (bool_decide (ticker = "") || bool_decide (_ = ""));
      [reflexivity |].
    destruct saved; [| reflexivity].
    intros Hno. now destruct (Hno _ _ eq_refl).
  - intros data' tk' date' Hsame. rewrite Hsame.
    destruct (bool_decide (ticker = "")
              || bool_decide (default "" (set_date data') = ""));
      [intros H; discriminate H |].
    intros [= <- <-]. simpl. apply lookup_insert_eq.
Qed.

End EarningsFacts.

(** ** Month navigation *)

Section CalendarFacts.
Import Calendar.
Local Open Scope Z_scope.

(** X26. For a month from 1 to 12 the previous and the next month shown by
    the calendar are again months from 1 to 12, the year changes only
    across December and January, and going back and forth returns to the
    month one started from. *)
Theorem month_navigation (year month : Z) :
  1 <= month <= 12 ->
  let p := prev_month year month in
  let n := next_month year month in
  1 <= p.2 <= 12 /\ 1 <= n.2 <= 12
  /\ next_month p.1 p.2 = (year, month)
  /\ prev_month n.1 n.2 = (year, month)
  /\ 12 * p.1 + p.2 = 12 * year + month - 1
  /\ 12 * n.1 + n.2 = 12 * year + month + 1.
Proof.
  intros Hm. unfold prev_month, next_month.
  destruct (Z.eqb_spec month 1) as [E1 | E1];
    destruct (Z.eqb_spec month 12) as [E12 | E12]; simpl;
    repeat match goal with
           | |- context [(?a =? ?b)] => destruct (Z.eqb_spec a b)
           end;
    repeat split; try lia; f_equal; lia.
Qed.

Lemma month_navigation_witness :
  prev_month 2024 1 = (2023, 12) /\ next_month 2023 12 = (2024, 1).
Proof.
  split; [reflexivity |].
  exact (proj1 (proj2 (proj2 (month_navigation 2024 1 ltac:(lia))))).
Defined.

End CalendarFacts.

Section EarningsWitness.
Import Earnings.

Lemma set_earnings_by_upper_ticker_witness :
  let first := set_earnings {| set_ticker := Some "aapl";
                               set_date := Some "2024-07-25" |} true ∅ in
  (set_earnings {| set_ticker := Some "AAPL"; set_date := Some "2024-08-01" |}
     true first.2).2 !! "AAPL" = Some "2024-08-01".
Proof.
  intros first.
  exact (proj2 (proj2 (set_earnings_by_upper_ticker
                         {| set_ticker := Some "aapl";
                            set_date := Some "2024-07-25" |} true ∅))
           {| set_ticker := Some "AAPL"; set_date := Some "2024-08-01" |}
           "AAPL" "2024-08-01" eq_refl eq_refl).
Defined.

End EarningsWitness.

(** ** CSV export *)

Section ExportFacts.
Import PyStr Sheet Cache Sizing Csv.

Lemma lower_upper_char (c : ascii) : lower_char (upper_char c) = lower_char c.
Proof. destruct c as [[] [] [] [] [] [] [] []]; reflexivity. Qed.

Lemma lower_upper (s : string) : lower (upper s) = lower s.
Proof.
  unfold lower, upper. rewrite list_ascii_of_string_of_list_ascii.
  rewrite map_map. f_equal. apply map_ext. apply lower_upper_char.
Qed.

Lemma contains_empty_hay (needle : string) :
  needle <> "" -> contains needle "" = false.
Proof. destruct needle; [congruence | reflexivity]. Qed.

(** X27. The rows of the CSV export form a table: the first row is the
    header list and every row has as many cells as there are headers, a
    missing key giving an empty cell.  Without a filter there is one row
    per stock, in the sheet's order.  The filter ignores the case of
    ASCII letters, and a stock without a [Ticker] key is left out by every
    non-empty filter. *)
Theorem export_rows_form_a_table (filter_arg : option string)
    (snap : snapshot) :
  let rows := export_rows filter_arg snap in
  head rows = Some (headers snap)
  /\ Forall (fun row => length row = length (headers snap)) rows
  /\ (lower (default "" filter_arg) = "" ->
      tail rows = map (row_of (headers snap)) (stocks snap))
  /\ (forall f, filter_arg = Some f ->
                export_rows (Some (upper f)) snap = rows)
  /\ (forall stock, stock !! "Ticker" = None ->
                    lower (default "" filter_arg) <> "" ->
                    passes (lower (default "" filter_arg)) stock = false).
Proof.
  intros rows. subst rows. unfold export_rows.
  split; [reflexivity |]. split; [| split; [| split]].
  - constructor; [reflexivity |].
    apply Forall_forall. intros row Hrow.
    apply list_elem_of_In, in_map_iff in Hrow as (stock & <- & _).
    unfold row_of. apply length_map.
  - intros Hempty. simpl. rewrite Hempty. f_equal.
    apply filter_all. intros stock _. unfold passes.
    now rewrite bool_decide_eq_true_2.
  - intros f ->. simpl. now rewrite lower_upper.
  - intros stock Hno Hne. unfold passes.
    rewrite bool_decide_eq_false_2 by exact Hne.
    rewrite Hno. change (lower (default "" None)) with "".
    now apply contains_empty_hay.
Qed.

Variable py_float : string -> option Q.

(** X28. The export serves the snapshot the cache holds, and [/api/data]
    annotates that snapshot in place: an export answered from the cache
    after a [/api/data] request has the ["Cost"] column and the computed
    cells of that response, although the export itself computes
    nothing. *)
Theorem export_after_api_data (cfg : config) (s : settings) (now : Q)
    (run : gog_run) (st st1 : state) (body : snapshot) :
  api_data py_float cfg s now run st = (Http200 body, st1) ->
  forall filter_arg now' run',
    wants_fetch cfg false now' st1 = false ->
    api_export cfg filter_arg now' run' st1
    = (Some (export_rows filter_arg body), st1)
    /\ "Cost" ∈ headers body
    /\ exists snap,
         (get_cached_data cfg false now run st).1 = Some snap
         /\ (api_export cfg filter_arg now run st).1
            = Some (export_rows filter_arg snap).
Proof.
  intros H filter_arg now' run' Hw.
  destruct (api_data_body py_float cfg s now run st body st1 H)
    as (snap & Hget & Hbody & Hd).
  split; [| split].
  - unfold api_export.
    now rewrite (get_no_fetch cfg false now' run' st1 Hw), Hd.
  - rewrite Hbody. simpl. apply add_cost_header_has_cost.
  - exists snap. split; [exact Hget |]. unfold api_export.
    destruct (get_cached_data cfg false now run st) as [d st'].
    simpl in *. now rewrite Hget.
Qed.

End ExportFacts.

Section ExportWitnesses.
Import PyNum Sheet Cache Sizing Csv Sample.
Local Open Scope Q_scope.

Lemma export_rows_form_a_table_witness :
  export_rows (Some "AA") scan = export_rows (Some "aa") scan
  /\ export_rows (Some "aa") scan
     = [sheet_headers; ["AAPL"; "3.25"; "0.25"; ""]].
Proof.
  split; [| reflexivity].
  exact (proj1 (proj2 (proj2 (proj2
           (export_rows_form_a_table (Some "aa") scan)))) "aa" eq_refl).
Defined.

Lemma export_after_api_data_witness :
  let st1 := (api_data decimal_literal cfg no_settings 1001 failed warm).2 in
  (api_export cfg (Some "aapl") 1100 failed st1).1
  = Some [["Ticker"; "Pivot"; "Stop"; "Shares"; "Cost"];
          ["AAPL"; "3.25"; "0.25"; "333"; "$1,082"]].
Proof.
  intros st1.
  assert (E : api_data decimal_literal cfg no_settings 1001 failed warm
              = (Http200 (annotate decimal_literal no_settings scan), st1))
    by reflexivity.
  destruct (export_after_api_data decimal_literal cfg no_settings 1001 failed
              warm st1 _ E (Some "aapl") 1100 failed eq_refl) as (H1 & _).
  rewrite H1. reflexivity.
Defined.

End ExportWitnesses.

(** ** The routine journal *)

Section RoutineFacts.
Import Routine.

Lemma prefix_split (p s : string) :
  String.prefix p s = true -> s = (p ++ string_drop (String.length p) s)%string.
Proof.
  revert s. induction p as [| a p IH]; intros s; [reflexivity |].
  destruct s as [| b s]; simpl; [discriminate |].
  destruct (ascii_dec a b) as [-> | _]; [| discriminate].
  intros H. change (String b s = String b (p ++ string_drop (String.length p) s)).
  f_equal. now apply IH.
Qed.

Lemma prefix_append (p k : string) : String.prefix p (p ++ k) = true.
Proof.
  induction p as [| a p IH]; simpl; [now destruct k |].
  destruct (ascii_dec a a); [exact IH | congruence].
Qed.

Lemma string_drop_append (p k : string) :
  string_drop (String.length p) (p ++ k) = k.
Proof. induction p as [| a p IH]; simpl; [reflexivity | exact IH]. Qed.

Lemma stripped_field (kv : string * string) (k v : string) :
  (if String.prefix "routine_" kv.1
   then Some (string_drop 8 kv.1, kv.2) else None) = Some (k, v)
  <-> kv = (("routine_" ++ k)%string, v).
Proof.
  destruct kv as [key val]. simpl. split.
  - destruct (String.prefix "routine_" key) eqn:E; [| discriminate].
    intros [= <- <-]. f_equal. exact (prefix_split "routine_" key E).
  - intros [= -> ->].
    rewrite (prefix_append "routine_" k). reflexivity.
Qed.

Lemma routine_fields_elem (form : gmap string string) (k v : string) :
  (k, v) ∈ omap (fun kv : string * string =>
                   if String.prefix "routine_" kv.1
                   then Some (string_drop 8 kv.1, kv.2) else None)
                (map_to_list form)
  <-> form !! ("routine_" ++ k)%string = Some v.
Proof.
  rewrite list_elem_of_omap. split.
  - intros (kv & Hin & Hf). apply stripped_field in Hf as ->.
    now apply elem_of_map_to_list in Hin.
  - intros H. exists (("routine_" ++ k)%string, v). split.
    + now apply elem_of_map_to_list.
    + now apply stripped_field.
Qed.

Lemma routine_fields_NoDup (l : list (string * string)) :
  NoDup l.*1 ->
  NoDup (omap (fun kv : string * string =>
                 if String.prefix "routine_" kv.1
                 then Some (string_drop 8 kv.1, kv.2) else None) l).*1.
Proof.
  induction l as [| [key val] l IH]; simpl; intros Hnd; [constructor |].
  apply NoDup_cons in Hnd as [Hkey Hnd].
  destruct (String.prefix "routine_" key) eqn:E; [| now apply IH].
  simpl. apply NoDup_cons. split; [| now apply IH].
  intros Hin. apply Hkey.
  apply list_elem_of_fmap in Hin as ([k v] & Hk & Hin). simpl in Hk.
  apply list_elem_of_omap in Hin as ([key' val'] & Hin & Hf).
  apply stripped_field in Hf. injection Hf as -> ->.
  apply list_elem_of_fmap. exists (key, v). split; [reflexivity |].
  rewrite (prefix_split "routine_" key E). simpl. now rewrite Hk.
Qed.

(** A journal field is found under its name without the prefix. *)
Lemma routine_fields_lookup (form : gmap string string) (k : string) :
  routine_fields form !! k = form !! ("routine_" ++ k)%string.
Proof.
  unfold routine_fields.
  destruct (form !! ("routine_" ++ k)%string) as [v |] eqn:E.
  - apply elem_of_list_to_map_1.
    + apply routine_fields_NoDup, NoDup_fst_map_to_list.
    + now apply routine_fields_elem.
  - apply not_elem_of_list_to_map_1. intros Hin.
    apply list_elem_of_fmap in Hin as ([k' v] & -> & Hin).
    apply routine_fields_elem in Hin. simpl in E. congruence.
Qed.

Lemma save_routine_dir date_str data now d d' :
  save_routine date_str data now true d = Some d' ->
  d' = <[date_str := Some {| date := Some date_str; updated_at := Some now;
                             premarket := premarket data;
                             postclose := postclose data |}]> d.
Proof. now intros [= <-]. Qed.

(** X29. A routine form that is posted can be read back: after a POST that
    is saved, the GET of the same date and phase shows the posted fields
    whose names start with [routine_], each under its name without that
    prefix, and no other field.  The other phase of the day and the
    documents of all other dates are untouched; an unknown phase is
    refused with 404 and nothing is written. *)
Theorem posted_routine_reads_back (date_str routine_type : string)
    (form : gmap string string) (now : string) (written : bool)
    (d d' : gmap string (option entry)) :
  (known_type routine_type = false ->
   forall posted, routine_form date_str routine_type posted now written d
                  = (Invalid404, d))
  /\ (routine_form date_str routine_type (Some form) now written d
      = (Redirect date_str, d') ->
      (forall now' written',
          routine_form date_str routine_type None now' written' d'
          = (Render (routine_fields form), d'))
      /\ (forall k, routine_fields form !! k
                    = form !! ("routine_" ++ k)%string)
      /\ (forall other, other <> date_str -> d' !! other = d !! other)
      /\ (forall before after other_type,
            load_routine d date_str = Some before ->
            load_routine d' date_str = Some after ->
            known_type other_type = true -> other_type <> routine_type ->
            get_phase other_type after = get_phase other_type before)).
Proof.
  split.
  - intros Hunknown posted. unfold routine_form. now rewrite Hunknown.
  - unfold routine_form.
    destruct (known_type routine_type) eqn:Hknown; simpl; [| discriminate].
    destruct (load_routine d date_str) as [data |] eqn:Hload;
      [| discriminate].
    destruct written; simpl; [| discriminate].
    intros [= <-].
    assert (Hl : forall (e : entry), load_routine
                   (<[date_str := Some e]> d) date_str = Some e)
      by (intros e; unfold load_routine; now rewrite lookup_insert_eq).
    split; [| split; [apply routine_fields_lookup | split]].
    + intros now' written'. rewrite Hl. f_equal. f_equal.
      unfold get_phase, set_phase.
      destruct (bool_decide (routine_type = "premarket")); reflexivity.
    + intros other Hne. now apply lookup_insert_ne.
    + intros before after other_type [= <-] Hafter Hk Hne.
      rewrite Hl in Hafter. injection Hafter as <-.
      unfold known_type in Hknown, Hk.
      unfold get_phase, set_phase.
      repeat case_bool_decide; simpl in *;
        try reflexivity; try congruence; discriminate.
Qed.

(** X30. [api_routine_save] replaces one phase of the day and nothing
    else, and stamps the document with the date and the time of the
    request; a type that is neither ['premarket'] nor ['postclose'] is
    answered with success all the same and only renews the stamp.  In the
    calendar a phase counts as filled when it is present and not empty, so
    a phase saved with no fields still shows as not filled. *)
Theorem api_routine_save_effect (date_str : string) (req : save_request)
    (now : string) (d d' : gmap string (option entry)) (before : entry) :
  load_routine d date_str = Some before ->
  api_routine_save date_str req now true d = (true, d') ->
  let rtype := default "premarket" (req_type req) in
  let fields := default ∅ (req_data req) in
  exists after,
    d' = <[date_str := Some after]> d
    /\ date after = Some date_str /\ updated_at after = Some now
    /\ (known_type rtype = false ->
        premarket after = premarket before
        /\ postclose after = postclose before)
    /\ (rtype = "premarket" ->
        premarket after = Some fields /\ postclose after = postclose before)
    /\ (rtype = "postclose" ->
        postclose after = Some fields /\ premarket after = premarket before)
    /\ get_all_routine_dates d' !! date_str
       = Some (filled (premarket after), filled (postclose after))
    /\ (rtype = "premarket" -> fields = ∅ ->
        exists flag, get_all_routine_dates d' !! date_str
                     = Some (false, flag)).
Proof.
  intros Hload Hsave rtype fields. revert Hsave.
  unfold api_routine_save. rewrite Hload. simpl.
  fold rtype fields.
  set (data' := if known_type rtype then set_phase rtype fields before
                else before).
  intros [= <-].
  exists {| date := Some date_str; updated_at := Some now;
            premarket := premarket data'; postclose := postclose data' |}.
  split; [reflexivity |]. simpl.
  assert (Hflags : forall e : entry,
             get_all_routine_dates (<[date_str := Some e]> d) !! date_str
             = Some (filled (premarket e), filled (postclose e))).
  { intros e. unfold get_all_routine_dates.
    now rewrite lookup_omap, lookup_insert_eq. }
  split; [reflexivity |]. split; [reflexivity |].
  split; [| split; [| split; [| split]]].
  - intros Hk. unfold data'. now rewrite Hk.
  - intros Hr. unfold data'. rewrite Hr. simpl. now split.
  - intros Hr. unfold data'. rewrite Hr. simpl. now split.
  - now rewrite Hflags.
  - intros Hr Hempty. rewrite Hflags. unfold data'. rewrite Hr. simpl.
    rewrite Hempty. eexists. reflexivity.
Qed.

End RoutineFacts.

Section RoutineWitnesses.
Import Routine Sample3.

Lemma posted_routine_reads_back_witness :
  let d' := (routine_form "2024-05-01" "premarket" (Some morning_form)
               "2024-05-01T08:00:00" true journal).2 in
  (routine_form "2024-05-01" "premarket" None "2024-05-01T08:05:00" true d').1
  = Render (routine_fields morning_form)
  /\ routine_fields morning_form !! "mood" = Some "calm"
  /\ routine_fields morning_form !! "submit" = None.
Proof.
  intros d'.
  destruct (proj2 (posted_routine_reads_back "2024-05-01" "premarket"
                     morning_form "2024-05-01T08:00:00" true journal d')
              eq_refl) as (Hget & Hfields & _).
  split; [now rewrite Hget |].
  split; rewrite Hfields; reflexivity.
Defined.

Lemma api_routine_save_effect_witness :
  exists flag,
    get_all_routine_dates
      (api_routine_save "2024-05-01"
         {| req_type := None; req_data := None |}
         "2024-05-01T08:00:00" true journal).2 !! "2024-05-01"
    = Some (false, flag).
Proof.
  destruct (api_routine_save_effect "2024-05-01"
              {| req_type := None; req_data := None |}
              "2024-05-01T08:00:00" journal _ _ eq_refl eq_refl)
    as (after & _ & _ & _ & _ & _ & _ & _ & Hempty).
  exact (Hempty eq_refl eq_refl).
Defined.

End RoutineWitnesses.
